(** * Boilermakers pay calculator: the weekly deduction engine

    A shallow embedding of the two engine files of the repository,
    [src/calculator.js] (the options-record variant) and
    [src/unnamed/part_000] (the bare-mode-string variant), and the
    properties of their specification.

    Numbers.  The engine is pure arithmetic on JavaScript numbers.  The
    two files are embedded twice, line by line:

    - in exact arithmetic, modules [Calculator] and [Legacy]: amounts
      are rationals [Q], [+], [-], [*], [/] are the field operations,
      [Math.min]/[Math.max] are [Qmin]/[Qmax], numeric equality is [==],
      and the [Infinity] limit of the top bracket is modelled by the
      type [num].  This is the arithmetic the specification states its
      formulas in; it has no rounding, overflow or [NaN];
    - in binary64 arithmetic, modules [B64.Calculator] and [B64.Legacy]:
      amounts are the 64-bit floats of the language, with rounding to
      nearest, overflow to [Infinity], [NaN] and signed zeros.

    A property that depends on sums or differences being exact is
    settled on the binary64 embedding. *)

From Stdlib Require Import QArith Qminmax Lqa Lia String List Bool ZArith.
From Stdlib Require Import Floats.
From Stdlib Require Uint63.
Import ListNotations.
#[local] Set Warnings "-inexact-float".
Open Scope Q_scope.

(** ** JavaScript values that reach the engine *)

(** A number that may be non-finite: bracket limits and the differences
    [bracket.limit - lastLimit]. *)
Inductive num : Type :=
  | Fin (q : Q)
  | PosInf
  | NegInf
  | NaN.

(** [a - b] on possibly non-finite numbers. *)
Definition num_sub (a b : num) : num :=
  match a, b with
  | Fin x, Fin y => Fin (x - y)
  | NaN, _ | _, NaN => NaN
  | PosInf, PosInf | NegInf, NegInf => NaN
  | PosInf, _ => PosInf
  | NegInf, _ => NegInf
  | Fin _, PosInf => NegInf
  | Fin _, NegInf => PosInf
  end.

(** [Math.min(r, e)] for a finite [r]. *)
Definition num_min (r : Q) (e : num) : num :=
  match e with
  | Fin x => Fin (Qmin r x)
  | PosInf => Fin r
  | NegInf => NegInf
  | NaN => NaN
  end.

(** The comparisons [a > b] and [a <= b] on finite numbers. *)
Definition js_gt (a b : Q) : bool := negb (Qle_bool a b).
Definition js_le (a b : Q) : bool := Qle_bool a b.

(** A value of dynamic type, as passed for the mode. *)
Inductive jsval : Type :=
  | JUndefined
  | JNull
  | JBoolean (b : bool)
  | JNumber (q : Q)
  | JString (s : string).

(** [v === "literal"]. *)
Definition strict_eq_string (v : jsval) (lit : string) : bool :=
  match v with
  | JString s => String.eqb s lit
  | _ => false
  end.

(** An optional numeric property of an options object. *)
Inductive nullable : Type :=
  | Undefined
  | Null
  | Value (q : Q).

(** [v ?? d]: only [undefined] and [null] are replaced. *)
Definition nullish (v : nullable) (d : Q) : Q :=
  match v with
  | Value q => q
  | _ => d
  end.

(** [v || 0] for a numeric argument that may be missing: a missing
    argument and the number zero are the falsy cases. *)
Definition or_zero (v : option Q) : Q :=
  match v with
  | Some q => if Qeq_bool q 0 then 0 else q
  | None => 0
  end.

(** A parameter with default value [d]: the default replaces a missing
    ([undefined]) argument only. *)
Definition default_arg {A : Type} (v : option A) (d : A) : A :=
  match v with
  | Some a => a
  | None => d
  end.

(** ** Records shared by the two files *)

(** A bracket [{ limit, rate }]. *)
Record bracket : Type := mkBracket { limit : num; rate : Q }.

(** The result [{ federalWeekly, abWeekly }] of the income tax step. *)
Record taxResult : Type := mkTax { federalWeekly : Q; abWeekly : Q }.

(** The result [{ cpp, cpp2, ei }] of the contribution step. *)
Module CppEi.
Record t : Type := mk { cpp : Q; cpp2 : Q; ei : Q }.
End CppEi.

(** The breakdown returned by [calculateDeductionsForWeek]. *)
Record breakdown : Type := mkBreakdown {
  cpp : Q;
  cpp2 : Q;
  ei : Q;
  federalTax : Q;
  albertaTax : Q;
  unionDues : Q;
  totalDeductions : Q;
  netTaxableOnly : Q;
  netPayTotal : Q
}.

(** The options object [{ unionDuesRate, taxMode }] of [src/calculator.js]. *)
Record options : Type := mkOptions { unionDuesRate : nullable; taxMode : jsval }.

(** The literal [{}]. *)
Definition empty_options : options := mkOptions Undefined JUndefined.

(** ** src/calculator.js *)

Module Calculator.

Definition CPP_RATE : Q := 0.0595.
Definition CPP_YMPE : Q := 71300.
Definition CPP_BASIC_EXEMPTION : Q := 3500.
Definition CPP_MAX_CONTRIB : Q := 4034.10.

Definition CPP2_RATE : Q := 0.04.
Definition CPP2_YAMPE : Q := 81200.
Definition CPP2_MAX_CONTRIB : Q := 396.0.

Definition EI_RATE : Q := 0.0164.
Definition EI_MAX_INSURABLE : Q := 65700.
Definition EI_MAX_CONTRIB : Q := 1077.48.

Definition FED_BRACKETS_2025 : list bracket :=
  [ mkBracket (Fin 57375) 0.15;
    mkBracket (Fin 114750) 0.205;
    mkBracket (Fin 177882) 0.26;
    mkBracket (Fin 253414) 0.29;
    mkBracket PosInf 0.33 ].

Definition FED_BPA : Q := 16129.
Definition FED_CREDIT_RATE : Q := 0.145.

Definition AB_BRACKETS_2025 : list bracket :=
  [ mkBracket (Fin 60000) 0.08;
    mkBracket (Fin 151234) 0.10;
    mkBracket (Fin 181481) 0.12;
    mkBracket (Fin 241974) 0.13;
    mkBracket (Fin 362961) 0.14;
    mkBracket PosInf 0.15 ].

Definition AB_BPA : Q := 22323.
Definition AB_CREDIT_RATE : Q := 0.08.

Definition DEFAULT_UNION_DUES_RATE : Q := 0.0375.

(** The [for] loop of [applyProgressiveTax], with its three variables
    [remaining], [lastLimit] and [tax] as arguments.  [break] returns
    the tax accumulated so far.  [taxableAtThisRate > 0] can only hold
    of a finite value, the minimum with the finite [remaining]; the
    comparison is false at [-Infinity] and [NaN]. *)
Fixpoint progressiveLoop (brackets : list bracket)
         (remaining : Q) (lastLimit : num) (tax : Q) : Q :=
  match brackets with
  | [] => tax
  | bracket :: rest =>
      if js_le remaining 0 then tax
      else
        match num_min remaining (num_sub (limit bracket) lastLimit) with
        | Fin taxableAtThisRate =>
            if js_gt taxableAtThisRate 0 then
              progressiveLoop rest
                (remaining - taxableAtThisRate)
                (limit bracket)
                (tax + taxableAtThisRate * rate bracket)
            else progressiveLoop rest remaining lastLimit tax
        | _ => progressiveLoop rest remaining lastLimit tax
        end
  end.

Definition applyProgressiveTax (annualIncome : Q) (brackets : list bracket) : Q :=
  progressiveLoop brackets annualIncome (Fin 0) 0.

Definition clamp (value minVal maxVal : Q) : Q :=
  Qmax minVal (Qmin maxVal value).

Definition calculateCppEiForWeek (taxableWeekly : Q) (mode : string) : CppEi.t :=
  let weeksPerYear := 52 in
  let annualEarnings := taxableWeekly * weeksPerYear in
  if String.eqb mode "early-year" then
    let cppEarningsWeekly := Qmax 0 (taxableWeekly - CPP_BASIC_EXEMPTION / weeksPerYear) in
    let cppWeekly := cppEarningsWeekly * CPP_RATE in
    let cppWeeklyMax := CPP_MAX_CONTRIB / weeksPerYear in
    let cppWeekly := if js_gt cppWeekly cppWeeklyMax then cppWeeklyMax else cppWeekly in
    let cpp2Weekly :=
      if js_gt annualEarnings CPP_YMPE then
        let excessEarningsAnnual := clamp (annualEarnings - CPP_YMPE) 0 (CPP2_YAMPE - CPP_YMPE) in
        let cpp2Annual := excessEarningsAnnual * CPP2_RATE in
        let cpp2AnnualCapped := Qmin cpp2Annual CPP2_MAX_CONTRIB in
        cpp2AnnualCapped / weeksPerYear
      else 0 in
    let eiEarningsWeekly := Qmin taxableWeekly (EI_MAX_INSURABLE / weeksPerYear) in
    let eiWeekly := eiEarningsWeekly * EI_RATE in
    let eiWeeklyMax := EI_MAX_CONTRIB / weeksPerYear in
    let eiWeekly := if js_gt eiWeekly eiWeeklyMax then eiWeeklyMax else eiWeekly in
    CppEi.mk cppWeekly cpp2Weekly eiWeekly
  else
    let cppPensionableAnnual :=
      clamp (annualEarnings - CPP_BASIC_EXEMPTION) 0 (CPP_YMPE - CPP_BASIC_EXEMPTION) in
    let cppAnnualRaw := cppPensionableAnnual * CPP_RATE in
    let cppAnnual := Qmin cppAnnualRaw CPP_MAX_CONTRIB in
    let cppWeekly := cppAnnual / weeksPerYear in
    let cpp2Weekly :=
      if js_gt annualEarnings CPP_YMPE then
        let cpp2BaseAnnual := clamp (annualEarnings - CPP_YMPE) 0 (CPP2_YAMPE - CPP_YMPE) in
        let cpp2AnnualRaw := cpp2BaseAnnual * CPP2_RATE in
        let cpp2Annual := Qmin cpp2AnnualRaw CPP2_MAX_CONTRIB in
        cpp2Annual / weeksPerYear
      else 0 in
    let eiInsurableAnnual := Qmin annualEarnings EI_MAX_INSURABLE in
    let eiAnnualRaw := eiInsurableAnnual * EI_RATE in
    let eiAnnual := Qmin eiAnnualRaw EI_MAX_CONTRIB in
    let eiWeekly := eiAnnual / weeksPerYear in
    CppEi.mk cppWeekly cpp2Weekly eiWeekly.

Definition calculateAnnualFederalTaxGross (annualTaxable : Q) : Q :=
  applyProgressiveTax annualTaxable FED_BRACKETS_2025.

Definition calculateAnnualAlbertaTaxGross (annualTaxable : Q) : Q :=
  applyProgressiveTax annualTaxable AB_BRACKETS_2025.

(** The fourth parameter [mode] is accepted and never read. *)
Definition calculateIncomeTaxForWeek
           (taxableWeekly cppWeekly eiWeekly : Q) (mode : string) : taxResult :=
  let weeksPerYear := 52 in
  let annualTaxable := taxableWeekly * weeksPerYear in
  let cppAnnual := cppWeekly * weeksPerYear in
  let eiAnnual := eiWeekly * weeksPerYear in
  let federalGrossAnnual := calculateAnnualFederalTaxGross annualTaxable in
  let federalCreditAnnual :=
    FED_BPA * FED_CREDIT_RATE + (cppAnnual + eiAnnual) * FED_CREDIT_RATE in
  let federalNetAnnual := Qmax 0 (federalGrossAnnual - federalCreditAnnual) in
  let federalWeekly := federalNetAnnual / weeksPerYear in
  let abGrossAnnual := calculateAnnualAlbertaTaxGross annualTaxable in
  let abCreditAnnual :=
    AB_BPA * AB_CREDIT_RATE + (cppAnnual + eiAnnual) * AB_CREDIT_RATE in
  let abNetAnnual := Qmax 0 (abGrossAnnual - abCreditAnnual) in
  let abWeekly := abNetAnnual / weeksPerYear in
  mkTax federalWeekly abWeekly.

(** [calculateDeductionsForWeek(taxableWeekly, nonTaxableWeekly = 0,
    options = {})]: [None] is an omitted (or [undefined]) argument. *)
Definition calculateDeductionsForWeek
           (taxableWeekly : Q) (nonTaxableWeekly : option Q)
           (opts : option options) : breakdown :=
  let nonTaxableWeekly := default_arg nonTaxableWeekly 0 in
  let opts := default_arg opts empty_options in
  let unionDuesRate := nullish (unionDuesRate opts) DEFAULT_UNION_DUES_RATE in
  let taxMode :=
    if strict_eq_string (taxMode opts) "annualized"
    then "annualized"%string else "early-year"%string in
  let ce := calculateCppEiForWeek taxableWeekly taxMode in
  let cpp := CppEi.cpp ce in
  let cpp2 := CppEi.cpp2 ce in
  let ei := CppEi.ei ce in
  let tx := calculateIncomeTaxForWeek taxableWeekly cpp ei taxMode in
  let federalWeekly := federalWeekly tx in
  let abWeekly := abWeekly tx in
  let unionDues := taxableWeekly * unionDuesRate in
  let totalDeductions := cpp + cpp2 + ei + federalWeekly + abWeekly + unionDues in
  let netTaxableOnly := taxableWeekly - totalDeductions in
  let netPayTotal := netTaxableOnly + nonTaxableWeekly in
  mkBreakdown cpp cpp2 ei federalWeekly abWeekly unionDues
              totalDeductions netTaxableOnly netPayTotal.

End Calculator.

(** ** src/unnamed/part_000 *)

Module Legacy.

Definition CPP_RATE : Q := 0.0595.
Definition CPP_YMPE : Q := 71300.
Definition CPP_BASIC_EXEMPTION : Q := 3500.
Definition CPP_MAX_CONTRIB : Q := 4034.10.

Definition CPP2_RATE : Q := 0.04.
Definition CPP2_YAMPE : Q := 81200.
Definition CPP2_MAX_CONTRIB : Q := 396.00.

Definition EI_RATE : Q := 0.0164.
Definition EI_MAX_INSURABLE : Q := 65700.
Definition EI_MAX_CONTRIB : Q := 1077.48.

Definition FED_BRACKETS_2025 : list bracket :=
  [ mkBracket (Fin 57375) 0.15;
    mkBracket (Fin 114750) 0.205;
    mkBracket (Fin 177882) 0.26;
    mkBracket (Fin 253414) 0.29;
    mkBracket PosInf 0.33 ].

Definition FED_BPA : Q := 16129.
Definition FED_CREDIT_RATE : Q := 0.145.

Definition AB_BRACKETS_2025 : list bracket :=
  [ mkBracket (Fin 60000) 0.08;
    mkBracket (Fin 151234) 0.10;
    mkBracket (Fin 181481) 0.12;
    mkBracket (Fin 241974) 0.13;
    mkBracket (Fin 362961) 0.14;
    mkBracket PosInf 0.15 ].

Definition AB_BPA : Q := 22323.
Definition AB_CREDIT_RATE : Q := 0.08.

Definition UNION_DUES_RATE : Q := 0.0375.

Definition clamp (value minVal maxVal : Q) : Q :=
  Qmax minVal (Qmin maxVal value).

Fixpoint progressiveLoop (brackets : list bracket)
         (remaining : Q) (lastLimit : num) (tax : Q) : Q :=
  match brackets with
  | [] => tax
  | bracket :: rest =>
      if js_le remaining 0 then tax
      else
        match num_min remaining (num_sub (limit bracket) lastLimit) with
        | Fin taxableAtThisRate =>
            if js_gt taxableAtThisRate 0 then
              progressiveLoop rest
                (remaining - taxableAtThisRate)
                (limit bracket)
                (tax + taxableAtThisRate * rate bracket)
            else progressiveLoop rest remaining lastLimit tax
        | _ => progressiveLoop rest remaining lastLimit tax
        end
  end.

Definition applyProgressiveTax (annualIncome : Q) (brackets : list bracket) : Q :=
  progressiveLoop brackets annualIncome (Fin 0) 0.

Definition calculateCppEiForWeek (taxableWeekly : Q) (mode : string) : CppEi.t :=
  let weeksPerYear := 52 in
  let annualEarnings := taxableWeekly * weeksPerYear in
  if String.eqb mode "annualized" then
    let cppPensionableAnnual :=
      clamp (annualEarnings - CPP_BASIC_EXEMPTION) 0 (CPP_YMPE - CPP_BASIC_EXEMPTION) in
    let cppAnnualRaw := cppPensionableAnnual * CPP_RATE in
    let cppAnnual := Qmin cppAnnualRaw CPP_MAX_CONTRIB in
    let cppWeekly := cppAnnual / weeksPerYear in
    let cpp2Weekly :=
      if js_gt annualEarnings CPP_YMPE then
        let cpp2BaseAnnual := clamp (annualEarnings - CPP_YMPE) 0 (CPP2_YAMPE - CPP_YMPE) in
        let cpp2AnnualRaw := cpp2BaseAnnual * CPP2_RATE in
        let cpp2Annual := Qmin cpp2AnnualRaw CPP2_MAX_CONTRIB in
        cpp2Annual / weeksPerYear
      else 0 in
    let eiInsurableAnnual := Qmin annualEarnings EI_MAX_INSURABLE in
    let eiAnnualRaw := eiInsurableAnnual * EI_RATE in
    let eiAnnual := Qmin eiAnnualRaw EI_MAX_CONTRIB in
    let eiWeekly := eiAnnual / weeksPerYear in
    CppEi.mk cppWeekly cpp2Weekly eiWeekly
  else
    let cppEarningsWeekly := Qmax 0 (taxableWeekly - CPP_BASIC_EXEMPTION / weeksPerYear) in
    let cppWeeklyRaw := cppEarningsWeekly * CPP_RATE in
    let cppWeeklyMax := CPP_MAX_CONTRIB / weeksPerYear in
    let cppWeekly := Qmin cppWeeklyRaw cppWeeklyMax in
    let cpp2Weekly :=
      if js_gt annualEarnings CPP_YMPE then
        let excessEarningsAnnual := clamp (annualEarnings - CPP_YMPE) 0 (CPP2_YAMPE - CPP_YMPE) in
        let cpp2Annual := Qmin (excessEarningsAnnual * CPP2_RATE) CPP2_MAX_CONTRIB in
        cpp2Annual / weeksPerYear
      else 0 in
    let eiEarningsWeekly := Qmin taxableWeekly (EI_MAX_INSURABLE / weeksPerYear) in
    let eiWeeklyRaw := eiEarningsWeekly * EI_RATE in
    let eiWeeklyMax := EI_MAX_CONTRIB / weeksPerYear in
    let eiWeekly := Qmin eiWeeklyRaw eiWeeklyMax in
    CppEi.mk cppWeekly cpp2Weekly eiWeekly.

Definition calculateAnnualFederalTaxGross (annualTaxable : Q) : Q :=
  applyProgressiveTax annualTaxable FED_BRACKETS_2025.

Definition calculateAnnualAlbertaTaxGross (annualTaxable : Q) : Q :=
  applyProgressiveTax annualTaxable AB_BRACKETS_2025.

Definition calculateIncomeTaxForWeek
           (taxableWeekly cppWeekly eiWeekly : Q) : taxResult :=
  let weeksPerYear := 52 in
  let annualTaxable := taxableWeekly * weeksPerYear in
  let cppAnnual := cppWeekly * weeksPerYear in
  let eiAnnual := eiWeekly * weeksPerYear in
  let federalGrossAnnual := calculateAnnualFederalTaxGross annualTaxable in
  let federalCreditAnnual :=
    FED_BPA * FED_CREDIT_RATE + (cppAnnual + eiAnnual) * FED_CREDIT_RATE in
  let federalNetAnnual := Qmax 0 (federalGrossAnnual - federalCreditAnnual) in
  let federalWeekly := federalNetAnnual / weeksPerYear in
  let abGrossAnnual := calculateAnnualAlbertaTaxGross annualTaxable in
  let abCreditAnnual :=
    AB_BPA * AB_CREDIT_RATE + (cppAnnual + eiAnnual) * AB_CREDIT_RATE in
  let abNetAnnual := Qmax 0 (abGrossAnnual - abCreditAnnual) in
  let abWeekly := abNetAnnual / weeksPerYear in
  mkTax federalWeekly abWeekly.

(** [calculateDeductionsForWeek(taxableWeekly, nonTaxableWeekly,
    taxMode)]: [None] is an omitted (or [undefined]) second argument,
    [JUndefined] an omitted mode. *)
Definition calculateDeductionsForWeek
           (taxableWeekly : Q) (nonTaxableWeekly : option Q)
           (taxMode : jsval) : breakdown :=
  let mode :=
    if strict_eq_string taxMode "annualized"
    then "annualized"%string else "early-year"%string in
  let ce := calculateCppEiForWeek taxableWeekly mode in
  let cpp := CppEi.cpp ce in
  let cpp2 := CppEi.cpp2 ce in
  let ei := CppEi.ei ce in
  let tx := calculateIncomeTaxForWeek taxableWeekly cpp ei in
  let federalWeekly := federalWeekly tx in
  let abWeekly := abWeekly tx in
  let unionDues := taxableWeekly * UNION_DUES_RATE in
  let totalDeductions := cpp + cpp2 + ei + federalWeekly + abWeekly + unionDues in
  let netTaxableOnly := taxableWeekly - totalDeductions in
  let netPayTotal := netTaxableOnly + or_zero nonTaxableWeekly in
  mkBreakdown cpp cpp2 ei federalWeekly abWeekly unionDues
              totalDeductions netTaxableOnly netPayTotal.

End Legacy.

(** ** Definitions used to state the properties *)

(** The three outputs of the two branches of [calculateCppEiForWeek],
    named so that each can be studied on its own. *)
Definition cpp_early (taxableWeekly : Q) : Q :=
  CppEi.cpp (Calculator.calculateCppEiForWeek taxableWeekly "early-year").
Definition cpp2_early (taxableWeekly : Q) : Q :=
  CppEi.cpp2 (Calculator.calculateCppEiForWeek taxableWeekly "early-year").
Definition ei_early (taxableWeekly : Q) : Q :=
  CppEi.ei (Calculator.calculateCppEiForWeek taxableWeekly "early-year").
Definition cpp_annualized (taxableWeekly : Q) : Q :=
  CppEi.cpp (Calculator.calculateCppEiForWeek taxableWeekly "annualized").
Definition cpp2_annualized (taxableWeekly : Q) : Q :=
  CppEi.cpp2 (Calculator.calculateCppEiForWeek taxableWeekly "annualized").
Definition ei_annualized (taxableWeekly : Q) : Q :=
  CppEi.ei (Calculator.calculateCppEiForWeek taxableWeekly "annualized").

(** A schedule as the specification requires it: finite limits strictly
    ascending from [last], closed by one unbounded bracket. *)
Fixpoint ascending (last : Q) (bs : list bracket) : Prop :=
  match bs with
  | [] => False
  | b :: rest =>
      match limit b with
      | Fin l => last < l /\ ascending l rest
      | PosInf => rest = []
      | _ => False
      end
  end.

(** The tax of the specification's data model: each rate applies to the
    slice of the income between the previous limit and its own. *)
Fixpoint marginalSlices (last : Q) (bs : list bracket) (income : Q) : Q :=
  match bs with
  | [] => 0
  | b :: rest =>
      match limit b with
      | Fin l => rate b * Qmax 0 (Qmin income l - last) + marginalSlices l rest income
      | _ => rate b * Qmax 0 (income - last)
      end
  end.

Definition marginalTax (income : Q) (bs : list bracket) : Q :=
  marginalSlices 0 bs income.

(** The weekly tax of the specification: gross marginal-rate tax on the
    projected year, less the personal credit and the credit for the
    tier-1 and insurance contributions, floored at zero, per week. *)
Definition weeklyTaxFormula (taxableWeekly tier1Weekly insuranceWeekly : Q)
           (schedule : list bracket) (basicPersonalAmount creditRate : Q) : Q :=
  Qmax 0 (marginalTax (taxableWeekly * 52) schedule
          - (basicPersonalAmount * creditRate
             + (tier1Weekly * 52 + insuranceWeekly * 52) * creditRate)) / 52.

(** The tier-2 contribution as the specification words it: when the
    projected year exceeds 71300, the excess, clamped to the band up to
    81200, at 4%, capped at 396.00, per week; zero otherwise. *)
Definition tier2Formula (taxableWeekly : Q) : Q :=
  if Qlt_le_dec 71300 (taxableWeekly * 52) then
    Qmin (Qmax 0 (Qmin (taxableWeekly * 52 - 71300) (81200 - 71300)) * 0.04) 396.00 / 52
  else 0.

(** Field-by-field numeric equality of two breakdowns. *)
Definition breakdown_equiv (r1 r2 : breakdown) : Prop :=
  cpp r1 == cpp r2 /\ cpp2 r1 == cpp2 r2 /\ ei r1 == ei r2
  /\ federalTax r1 == federalTax r2 /\ albertaTax r1 == albertaTax r2
  /\ unionDues r1 == unionDues r2
  /\ totalDeductions r1 == totalDeductions r2
  /\ netTaxableOnly r1 == netTaxableOnly r2
  /\ netPayTotal r1 == netPayTotal r2.

(** ** The two files in binary64 arithmetic *)

(** The same two files with amounts as the numbers of the language:
    binary64 floats, with rounding, overflow to [Infinity], [NaN] and
    signed zeros.  [a > b] is [b <? a]; a comparison with [NaN] is
    false. *)
Module B64.

(** [Math.max] and [Math.min]: [NaN] if an argument is [NaN], and [+0]
    above [-0]. *)
Definition Math_max (a b : float) : float :=
  if is_nan a || is_nan b then nan
  else if (a <? b)%float then b
  else if (b <? a)%float then a
  else if get_sign a then b else a.

Definition Math_min (a b : float) : float :=
  if is_nan a || is_nan b then nan
  else if (a <? b)%float then a
  else if (b <? a)%float then b
  else if get_sign a then a else b.

(** An optional numeric property of an options object. *)
Inductive nullable : Type :=
  | Undefined
  | Null
  | Value (x : float).

(** [v ?? d]. *)
Definition nullish (v : nullable) (d : float) : float :=
  match v with
  | Value x => x
  | _ => d
  end.

(** [v || 0] for a numeric argument that may be missing: a missing
    argument, both zeros and [NaN] are the falsy cases. *)
Definition or_zero (v : option float) : float :=
  match v with
  | Some x => if (x =? 0)%float || is_nan x then 0%float else x
  | None => 0%float
  end.

Record bracket : Type := mkBracket { limit : float; rate : float }.

Record taxResult : Type := mkTax { federalWeekly : float; abWeekly : float }.

Record cppEi : Type := mkCppEi { cpp_of : float; cpp2_of : float; ei_of : float }.

Record breakdown : Type := mkBreakdown {
  cpp : float;
  cpp2 : float;
  ei : float;
  federalTax : float;
  albertaTax : float;
  unionDues : float;
  totalDeductions : float;
  netTaxableOnly : float;
  netPayTotal : float
}.

Record options : Type := mkOptions { unionDuesRate : nullable; taxMode : jsval }.

Definition empty_options : options := mkOptions Undefined JUndefined.



(** *** src/calculator.js *)
Module Calculator.

Definition CPP_RATE : float := 0.0595.
Definition CPP_YMPE : float := 71300.
Definition CPP_BASIC_EXEMPTION : float := 3500.
Definition CPP_MAX_CONTRIB : float := 4034.10.

Definition CPP2_RATE : float := 0.04.
Definition CPP2_YAMPE : float := 81200.
Definition CPP2_MAX_CONTRIB : float := 396.0.

Definition EI_RATE : float := 0.0164.
Definition EI_MAX_INSURABLE : float := 65700.
Definition EI_MAX_CONTRIB : float := 1077.48.

Definition FED_BRACKETS_2025 : list bracket :=
  [ mkBracket 57375 0.15;
    mkBracket 114750 0.205;
    mkBracket 177882 0.26;
    mkBracket 253414 0.29;
    mkBracket infinity 0.33 ].

Definition FED_BPA : float := 16129.
Definition FED_CREDIT_RATE : float := 0.145.

Definition AB_BRACKETS_2025 : list bracket :=
  [ mkBracket 60000 0.08;
    mkBracket 151234 0.10;
    mkBracket 181481 0.12;
    mkBracket 241974 0.13;
    mkBracket 362961 0.14;
    mkBracket infinity 0.15 ].

Definition AB_BPA : float := 22323.
Definition AB_CREDIT_RATE : float := 0.08.

Definition DEFAULT_UNION_DUES_RATE : float := 0.0375.

(** The [for] loop of [applyProgressiveTax], its variables [remaining],
    [lastLimit] and [tax] as arguments; [break] returns the tax. *)
Fixpoint progressiveLoop (brackets : list bracket)
         (remaining lastLimit tax : float) : float :=
  match brackets with
  | [] => tax
  | bracket :: rest =>
      if (remaining <=? 0)%float then tax
      else
        let taxableAtThisRate := Math_min remaining (limit bracket - lastLimit) in
        if (0 <? taxableAtThisRate)%float then
          progressiveLoop rest
            (remaining - taxableAtThisRate)
            (limit bracket)
            (tax + taxableAtThisRate * rate bracket)
        else progressiveLoop rest remaining lastLimit tax
  end.

Definition applyProgressiveTax (annualIncome : float) (brackets : list bracket) : float :=
  progressiveLoop brackets annualIncome 0 0.

Definition clamp (value minVal maxVal : float) : float :=
  Math_max minVal (Math_min maxVal value).

Definition calculateCppEiForWeek (taxableWeekly : float) (mode : string) : cppEi :=
  let weeksPerYear := 52%float in
  let annualEarnings := (taxableWeekly * weeksPerYear)%float in
  if String.eqb mode "early-year" then
    let cppEarningsWeekly :=
      Math_max 0 (taxableWeekly - CPP_BASIC_EXEMPTION / weeksPerYear) in
    let cppWeekly := (cppEarningsWeekly * CPP_RATE)%float in
    let cppWeeklyMax := (CPP_MAX_CONTRIB / weeksPerYear)%float in
    let cppWeekly := if (cppWeeklyMax <? cppWeekly)%float then cppWeeklyMax else cppWeekly in
    let cpp2Weekly :=
      if (CPP_YMPE <? annualEarnings)%float then
        let excessEarningsAnnual :=
          clamp (annualEarnings - CPP_YMPE) 0 (CPP2_YAMPE - CPP_YMPE) in
        let cpp2Annual := (excessEarningsAnnual * CPP2_RATE)%float in
        let cpp2AnnualCapped := Math_min cpp2Annual CPP2_MAX_CONTRIB in
        (cpp2AnnualCapped / weeksPerYear)%float
      else 0%float in
    let eiEarningsWeekly := Math_min taxableWeekly (EI_MAX_INSURABLE / weeksPerYear) in
    let eiWeekly := (eiEarningsWeekly * EI_RATE)%float in
    let eiWeeklyMax := (EI_MAX_CONTRIB / weeksPerYear)%float in
    let eiWeekly := if (eiWeeklyMax <? eiWeekly)%float then eiWeeklyMax else eiWeekly in
    mkCppEi cppWeekly cpp2Weekly eiWeekly
  else
    let cppPensionableAnnual :=
      clamp (annualEarnings - CPP_BASIC_EXEMPTION) 0 (CPP_YMPE - CPP_BASIC_EXEMPTION) in
    let cppAnnualRaw := (cppPensionableAnnual * CPP_RATE)%float in
    let cppAnnual := Math_min cppAnnualRaw CPP_MAX_CONTRIB in
    let cppWeekly := (cppAnnual / weeksPerYear)%float in
    let cpp2Weekly :=
      if (CPP_YMPE <? annualEarnings)%float then
        let cpp2BaseAnnual :=
          clamp (annualEarnings - CPP_YMPE) 0 (CPP2_YAMPE - CPP_YMPE) in
        let cpp2AnnualRaw := (cpp2BaseAnnual * CPP2_RATE)%float in
        let cpp2Annual := Math_min cpp2AnnualRaw CPP2_MAX_CONTRIB in
        (cpp2Annual / weeksPerYear)%float
      else 0%float in
    let eiInsurableAnnual := Math_min annualEarnings EI_MAX_INSURABLE in
    let eiAnnualRaw := (eiInsurableAnnual * EI_RATE)%float in
    let eiAnnual := Math_min eiAnnualRaw EI_MAX_CONTRIB in
    let eiWeekly := (eiAnnual / weeksPerYear)%float in
    mkCppEi cppWeekly cpp2Weekly eiWeekly.

Definition calculateAnnualFederalTaxGross (annualTaxable : float) : float :=
  applyProgressiveTax annualTaxable FED_BRACKETS_2025.

Definition calculateAnnualAlbertaTaxGross (annualTaxable : float) : float :=
  applyProgressiveTax annualTaxable AB_BRACKETS_2025.

(** The fourth parameter [mode] is accepted and never read. *)
Definition calculateIncomeTaxForWeek
           (taxableWeekly cppWeekly eiWeekly : float) (mode : string) : taxResult :=
  let weeksPerYear := 52%float in
  let annualTaxable := (taxableWeekly * weeksPerYear)%float in
  let cppAnnual := (cppWeekly * weeksPerYear)%float in
  let eiAnnual := (eiWeekly * weeksPerYear)%float in
  let federalGrossAnnual := calculateAnnualFederalTaxGross annualTaxable in
  let federalCreditAnnual :=
    (FED_BPA * FED_CREDIT_RATE + (cppAnnual + eiAnnual) * FED_CREDIT_RATE)%float in
  let federalNetAnnual := Math_max 0 (federalGrossAnnual - federalCreditAnnual) in
  let federalWeekly := (federalNetAnnual / weeksPerYear)%float in
  let abGrossAnnual := calculateAnnualAlbertaTaxGross annualTaxable in
  let abCreditAnnual :=
    (AB_BPA * AB_CREDIT_RATE + (cppAnnual + eiAnnual) * AB_CREDIT_RATE)%float in
  let abNetAnnual := Math_max 0 (abGrossAnnual - abCreditAnnual) in
  let abWeekly := (abNetAnnual / weeksPerYear)%float in
  mkTax federalWeekly abWeekly.

(** [calculateDeductionsForWeek(taxableWeekly, nonTaxableWeekly = 0,
    options = {})]: [None] is an omitted (or [undefined]) argument. *)
Definition calculateDeductionsForWeek
           (taxableWeekly : float) (nonTaxableWeekly : option float)
           (opts : option options) : breakdown :=
  let nonTaxableWeekly := default_arg nonTaxableWeekly 0%float in
  let opts := default_arg opts empty_options in
  let unionDuesRate := nullish (unionDuesRate opts) DEFAULT_UNION_DUES_RATE in
  let taxMode :=
    if strict_eq_string (taxMode opts) "annualized"
    then "annualized"%string else "early-year"%string in
  let ce := calculateCppEiForWeek taxableWeekly taxMode in
  let cpp := cpp_of ce in
  let cpp2 := cpp2_of ce in
  let ei := ei_of ce in
  let tx := calculateIncomeTaxForWeek taxableWeekly cpp ei taxMode in
  let federalWeekly := federalWeekly tx in
  let abWeekly := abWeekly tx in
  let unionDues := (taxableWeekly * unionDuesRate)%float in
  let totalDeductions :=
    (cpp + cpp2 + ei + federalWeekly + abWeekly + unionDues)%float in
  let netTaxableOnly := (taxableWeekly - totalDeductions)%float in
  let netPayTotal := (netTaxableOnly + nonTaxableWeekly)%float in
  mkBreakdown cpp cpp2 ei federalWeekly abWeekly unionDues
              totalDeductions netTaxableOnly netPayTotal.

End Calculator.

(** *** src/unnamed/part_000 *)
Module Legacy.

Definition CPP_RATE : float := 0.0595.
Definition CPP_YMPE : float := 71300.
Definition CPP_BASIC_EXEMPTION : float := 3500.
Definition CPP_MAX_CONTRIB : float := 4034.10.

Definition CPP2_RATE : float := 0.04.
Definition CPP2_YAMPE : float := 81200.
Definition CPP2_MAX_CONTRIB : float := 396.00.

Definition EI_RATE : float := 0.0164.
Definition EI_MAX_INSURABLE : float := 65700.
Definition EI_MAX_CONTRIB : float := 1077.48.

Definition FED_BRACKETS_2025 : list bracket :=
  [ mkBracket 57375 0.15;
    mkBracket 114750 0.205;
    mkBracket 177882 0.26;
    mkBracket 253414 0.29;
    mkBracket infinity 0.33 ].

Definition FED_BPA : float := 16129.
Definition FED_CREDIT_RATE : float := 0.145.

Definition AB_BRACKETS_2025 : list bracket :=
  [ mkBracket 60000 0.08;
    mkBracket 151234 0.10;
    mkBracket 181481 0.12;
    mkBracket 241974 0.13;
    mkBracket 362961 0.14;
    mkBracket infinity 0.15 ].

Definition AB_BPA : float := 22323.
Definition AB_CREDIT_RATE : float := 0.08.

Definition UNION_DUES_RATE : float := 0.0375.

Definition clamp (value minVal maxVal : float) : float :=
  Math_max minVal (Math_min maxVal value).

(** The [for] loop of [applyProgressiveTax], its variables [remaining],
    [lastLimit] and [tax] as arguments; [break] returns the tax. *)
Fixpoint progressiveLoop (brackets : list bracket)
         (remaining lastLimit tax : float) : float :=
  match brackets with
  | [] => tax
  | bracket :: rest =>
      if (remaining <=? 0)%float then tax
      else
        let taxableAtThisRate := Math_min remaining (limit bracket - lastLimit) in
        if (0 <? taxableAtThisRate)%float then
          progressiveLoop rest
            (remaining - taxableAtThisRate)
            (limit bracket)
            (tax + taxableAtThisRate * rate bracket)
        else progressiveLoop rest remaining lastLimit tax
  end.

Definition applyProgressiveTax (annualIncome : float) (brackets : list bracket) : float :=
  progressiveLoop brackets annualIncome 0 0.

Definition calculateCppEiForWeek (taxableWeekly : float) (mode : string) : cppEi :=
  let weeksPerYear := 52%float in
  let annualEarnings := (taxableWeekly * weeksPerYear)%float in
  if String.eqb mode "annualized" then
    let cppPensionableAnnual :=
      clamp (annualEarnings - CPP_BASIC_EXEMPTION) 0 (CPP_YMPE - CPP_BASIC_EXEMPTION) in
    let cppAnnualRaw := (cppPensionableAnnual * CPP_RATE)%float in
    let cppAnnual := Math_min cppAnnualRaw CPP_MAX_CONTRIB in
    let cppWeekly := (cppAnnual / weeksPerYear)%float in
    let cpp2Weekly :=
      if (CPP_YMPE <? annualEarnings)%float then
        let cpp2BaseAnnual :=
          clamp (annualEarnings - CPP_YMPE) 0 (CPP2_YAMPE - CPP_YMPE) in
        let cpp2AnnualRaw := (cpp2BaseAnnual * CPP2_RATE)%float in
        let cpp2Annual := Math_min cpp2AnnualRaw CPP2_MAX_CONTRIB in
        (cpp2Annual / weeksPerYear)%float
      else 0%float in
    let eiInsurableAnnual := Math_min annualEarnings EI_MAX_INSURABLE in
    let eiAnnualRaw := (eiInsurableAnnual * EI_RATE)%float in
    let eiAnnual := Math_min eiAnnualRaw EI_MAX_CONTRIB in
    let eiWeekly := (eiAnnual / weeksPerYear)%float in
    mkCppEi cppWeekly cpp2Weekly eiWeekly
  else
    let cppEarningsWeekly :=
      Math_max 0 (taxableWeekly - CPP_BASIC_EXEMPTION / weeksPerYear) in
    let cppWeeklyRaw := (cppEarningsWeekly * CPP_RATE)%float in
    let cppWeeklyMax := (CPP_MAX_CONTRIB / weeksPerYear)%float in
    let cppWeekly := Math_min cppWeeklyRaw cppWeeklyMax in
    let cpp2Weekly :=
      if (CPP_YMPE <? annualEarnings)%float then
        let excessEarningsAnnual :=
          clamp (annualEarnings - CPP_YMPE) 0 (CPP2_YAMPE - CPP_YMPE) in
        let cpp2Annual := Math_min (excessEarningsAnnual * CPP2_RATE) CPP2_MAX_CONTRIB in
        (cpp2Annual / weeksPerYear)%float
      else 0%float in
    let eiEarningsWeekly := Math_min taxableWeekly (EI_MAX_INSURABLE / weeksPerYear) in
    let eiWeeklyRaw := (eiEarningsWeekly * EI_RATE)%float in
    let eiWeeklyMax := (EI_MAX_CONTRIB / weeksPerYear)%float in
    let eiWeekly := Math_min eiWeeklyRaw eiWeeklyMax in
    mkCppEi cppWeekly cpp2Weekly eiWeekly.

Definition calculateAnnualFederalTaxGross (annualTaxable : float) : float :=
  applyProgressiveTax annualTaxable FED_BRACKETS_2025.

Definition calculateAnnualAlbertaTaxGross (annualTaxable : float) : float :=
  applyProgressiveTax annualTaxable AB_BRACKETS_2025.

Definition calculateIncomeTaxForWeek
           (taxableWeekly cppWeekly eiWeekly : float) : taxResult :=
  let weeksPerYear := 52%float in
  let annualTaxable := (taxableWeekly * weeksPerYear)%float in
  let cppAnnual := (cppWeekly * weeksPerYear)%float in
  let eiAnnual := (eiWeekly * weeksPerYear)%float in
  let federalGrossAnnual := calculateAnnualFederalTaxGross annualTaxable in
  let federalCreditAnnual :=
    (FED_BPA * FED_CREDIT_RATE + (cppAnnual + eiAnnual) * FED_CREDIT_RATE)%float in
  let federalNetAnnual := Math_max 0 (federalGrossAnnual - federalCreditAnnual) in
  let federalWeekly := (federalNetAnnual / weeksPerYear)%float in
  let abGrossAnnual := calculateAnnualAlbertaTaxGross annualTaxable in
  let abCreditAnnual :=
    (AB_BPA * AB_CREDIT_RATE + (cppAnnual + eiAnnual) * AB_CREDIT_RATE)%float in
  let abNetAnnual := Math_max 0 (abGrossAnnual - abCreditAnnual) in
  let abWeekly := (abNetAnnual / weeksPerYear)%float in
  mkTax federalWeekly abWeekly.

(** [calculateDeductionsForWeek(taxableWeekly, nonTaxableWeekly,
    taxMode)]: [None] is an omitted (or [undefined]) second argument,
    [JUndefined] an omitted mode. *)
Definition calculateDeductionsForWeek
           (taxableWeekly : float) (nonTaxableWeekly : option float)
           (taxMode : jsval) : breakdown :=
  let mode :=
    if strict_eq_string taxMode "annualized"
    then "annualized"%string else "early-year"%string in
  let ce := calculateCppEiForWeek taxableWeekly mode in
  let cpp := cpp_of ce in
  let cpp2 := cpp2_of ce in
  let ei := ei_of ce in
  let tx := calculateIncomeTaxForWeek taxableWeekly cpp ei in
  let federalWeekly := federalWeekly tx in
  let abWeekly := abWeekly tx in
  let unionDues := (taxableWeekly * UNION_DUES_RATE)%float in
  let totalDeductions :=
    (cpp + cpp2 + ei + federalWeekly + abWeekly + unionDues)%float in
  let netTaxableOnly := (taxableWeekly - totalDeductions)%float in
  let netPayTotal := (netTaxableOnly + or_zero nonTaxableWeekly)%float in
  mkBreakdown cpp cpp2 ei federalWeekly abWeekly unionDues
              totalDeductions netTaxableOnly netPayTotal.

End Legacy.







End B64.



(** ** Case analysis on the numeric primitives *)

Lemma Qmin_cases (a b : Q) :
  (a <= b /\ Qmin a b = a) \/ (b < a /\ Qmin a b = b).
Proof.
  unfold Qmin, GenericMinMax.gmin.
  destruct (Qcompare_spec a b) as [E | L | G]; [left | left | right]; split; auto.
  - rewrite E. apply Qle_refl.
  - apply Qlt_le_weak. exact L.
Qed.

Lemma Qmax_cases (a b : Q) :
  (a < b /\ Qmax a b = b) \/ (b <= a /\ Qmax a b = a).
Proof.
  unfold Qmax, GenericMinMax.gmax.
  destruct (Qcompare_spec a b) as [E | L | G]; [right | left | right]; split; auto.
  - rewrite E. apply Qle_refl.
  - apply Qlt_le_weak. exact G.
Qed.

Lemma js_le_cases (a b : Q) :
  (a <= b /\ js_le a b = true) \/ (b < a /\ js_le a b = false).
Proof.
  unfold js_le. destruct (Qle_bool a b) eqn:E.
  - left. split; auto. apply Qle_bool_iff. exact E.
  - right. split; auto. apply Qnot_le_lt. intro H.
    apply Qle_bool_iff in H. congruence.
Qed.

Lemma js_gt_cases (a b : Q) :
  (b < a /\ js_gt a b = true) \/ (a <= b /\ js_gt a b = false).
Proof.
  unfold js_gt. destruct (js_le_cases a b) as [[H E] | [H E]];
    unfold js_le in E; rewrite E; simpl; auto.
Qed.

(** Split the goal on every [Qmin], [Qmax] and comparison in it. *)
Ltac split_step :=
  match goal with
  | |- context [Qmin ?a ?b] =>
      let H := fresh "Hm" in let E := fresh "E" in
      destruct (Qmin_cases a b) as [[H E] | [H E]]; rewrite E in *; clear E
  | |- context [Qmax ?a ?b] =>
      let H := fresh "Hm" in let E := fresh "E" in
      destruct (Qmax_cases a b) as [[H E] | [H E]]; rewrite E in *; clear E
  | |- context [js_gt ?a ?b] =>
      let H := fresh "Hc" in let E := fresh "E" in
      destruct (js_gt_cases a b) as [[H E] | [H E]]; rewrite E in *; clear E
  | |- context [js_le ?a ?b] =>
      let H := fresh "Hc" in let E := fresh "E" in
      destruct (js_le_cases a b) as [[H E] | [H E]]; rewrite E in *; clear E
  | _ : context [Qmin ?a ?b] |- _ =>
      let H := fresh "Hm" in let E := fresh "E" in
      destruct (Qmin_cases a b) as [[H E] | [H E]]; rewrite E in *; clear E
  | _ : context [Qmax ?a ?b] |- _ =>
      let H := fresh "Hm" in let E := fresh "E" in
      destruct (Qmax_cases a b) as [[H E] | [H E]]; rewrite E in *; clear E
  end.

(** Linear arithmetic after turning the divisions by 52 into products. *)
Ltac qlin :=
  unfold Qdiv in *; change (/ 52) with (1 # 52) in *; lra.

Ltac split_all := repeat (split_step; try qlin).

Ltac unfold_consts :=
  unfold Calculator.clamp, Legacy.clamp,
    Calculator.CPP_RATE, Calculator.CPP_YMPE, Calculator.CPP_BASIC_EXEMPTION,
    Calculator.CPP_MAX_CONTRIB, Calculator.CPP2_RATE, Calculator.CPP2_YAMPE,
    Calculator.CPP2_MAX_CONTRIB, Calculator.EI_RATE, Calculator.EI_MAX_INSURABLE,
    Calculator.EI_MAX_CONTRIB, Calculator.FED_BPA, Calculator.FED_CREDIT_RATE,
    Calculator.AB_BPA, Calculator.AB_CREDIT_RATE, Calculator.DEFAULT_UNION_DUES_RATE,
    Legacy.CPP_RATE, Legacy.CPP_YMPE, Legacy.CPP_BASIC_EXEMPTION,
    Legacy.CPP_MAX_CONTRIB, Legacy.CPP2_RATE, Legacy.CPP2_YAMPE,
    Legacy.CPP2_MAX_CONTRIB, Legacy.EI_RATE, Legacy.EI_MAX_INSURABLE,
    Legacy.EI_MAX_CONTRIB, Legacy.FED_BPA, Legacy.FED_CREDIT_RATE,
    Legacy.AB_BPA, Legacy.AB_CREDIT_RATE, Legacy.UNION_DUES_RATE in *.

(** ** The contribution step, one output at a time *)

(** Every mode string takes one of the two branches. *)
Lemma calculator_mode_branch (m : string) :
  (forall t, Calculator.calculateCppEiForWeek t m
             = Calculator.calculateCppEiForWeek t "early-year")
  \/ (forall t, Calculator.calculateCppEiForWeek t m
                = Calculator.calculateCppEiForWeek t "annualized").
Proof.
  unfold Calculator.calculateCppEiForWeek.
  destruct (String.eqb m "early-year"); [left | right]; reflexivity.
Qed.

(** Capping by assignment, [if (x > cap) x = cap], is [Math.min(x, cap)]. *)
Lemma cap_if_is_min (a b : Q) : (if js_gt a b then b else a) = Qmin a b.
Proof.
  destruct (js_gt_cases a b) as [[H E] | [H E]]; rewrite E;
    destruct (Qmin_cases a b) as [[H' E'] | [H' E']]; rewrite E';
    try reflexivity; exfalso; lra.
Qed.

(** The legacy file selects the same two computations; only the test
    is on the other literal, the caps are taken with [Math.min], and the
    tier-2 cap is written [396.00] for [396.0]. *)
Lemma legacy_early (t : Q) :
  CppEi.cpp (Legacy.calculateCppEiForWeek t "early-year") = cpp_early t
  /\ CppEi.cpp2 (Legacy.calculateCppEiForWeek t "early-year") == cpp2_early t
  /\ CppEi.ei (Legacy.calculateCppEiForWeek t "early-year") = ei_early t.
Proof.
  unfold cpp_early, cpp2_early, ei_early,
    Legacy.calculateCppEiForWeek, Calculator.calculateCppEiForWeek.
  simpl. rewrite !cap_if_is_min. repeat split.
  unfold_consts. split_all.
Qed.

Lemma legacy_annualized (t : Q) :
  CppEi.cpp (Legacy.calculateCppEiForWeek t "annualized") = cpp_annualized t
  /\ CppEi.cpp2 (Legacy.calculateCppEiForWeek t "annualized") == cpp2_annualized t
  /\ CppEi.ei (Legacy.calculateCppEiForWeek t "annualized") = ei_annualized t.
Proof.
  unfold cpp_annualized, cpp2_annualized, ei_annualized,
    Legacy.calculateCppEiForWeek, Calculator.calculateCppEiForWeek.
  simpl. repeat split.
  unfold_consts. split_all.
Qed.

Lemma legacy_mode_branch (m : string) :
  (forall t, Legacy.calculateCppEiForWeek t m
             = Legacy.calculateCppEiForWeek t "early-year")
  \/ (forall t, Legacy.calculateCppEiForWeek t m
                = Legacy.calculateCppEiForWeek t "annualized").
Proof.
  unfold Legacy.calculateCppEiForWeek.
  destruct (String.eqb m "annualized"); [right | left]; reflexivity.
Qed.

(** Bounds, monotonicity and slope of each output.  The slope bounds
    say how fast the credit for contributions can grow. *)
Lemma cpp_early_cap (t : Q) : cpp_early t <= 4034.10 / 52.
Proof.
  unfold cpp_early, Calculator.calculateCppEiForWeek. simpl. unfold_consts.
  split_all.
Qed.

Ltac open_contrib :=
  unfold cpp_early, cpp2_early, ei_early, cpp_annualized, cpp2_annualized,
    ei_annualized, Calculator.calculateCppEiForWeek;
  simpl; unfold_consts.

Lemma cpp2_early_cap (t : Q) : cpp2_early t <= 396.00 / 52.
Proof. open_contrib. split_all. Qed.

Lemma ei_early_cap (t : Q) : ei_early t <= 1077.48 / 52.
Proof. open_contrib. split_all. Qed.

Lemma cpp_annualized_cap (t : Q) : cpp_annualized t <= 4034.10 / 52.
Proof. open_contrib. split_all. Qed.

Lemma cpp2_annualized_cap (t : Q) : cpp2_annualized t <= 396.00 / 52.
Proof. open_contrib. split_all. Qed.

Lemma ei_annualized_cap (t : Q) : ei_annualized t <= 1077.48 / 52.
Proof. open_contrib. split_all. Qed.

(** From a weekly amount of [81200 / 52] on, the projected year is past
    every ceiling and each output is its cap. *)
Lemma early_saturated (t : Q) :
  81200 / 52 <= t ->
  cpp_early t == 4034.10 / 52 /\ cpp2_early t == 396.00 / 52
  /\ ei_early t == 1077.48 / 52.
Proof. intros H. open_contrib. repeat split; split_all. Qed.

Lemma annualized_saturated (t : Q) :
  81200 / 52 <= t ->
  cpp_annualized t == 4034.10 / 52 /\ cpp2_annualized t == 396.00 / 52
  /\ ei_annualized t == 1077.48 / 52.
Proof. intros H. open_contrib. repeat split; split_all. Qed.

Lemma cpp_early_mono (t1 t2 : Q) :
  t1 <= t2 ->
  cpp_early t1 <= cpp_early t2
  /\ cpp_early t2 - cpp_early t1 <= 0.0595 * (t2 - t1).
Proof. intros H. open_contrib. split; split_all. Qed.

Lemma cpp_annualized_mono (t1 t2 : Q) :
  t1 <= t2 ->
  cpp_annualized t1 <= cpp_annualized t2
  /\ cpp_annualized t2 - cpp_annualized t1 <= 0.0595 * (t2 - t1).
Proof. intros H. open_contrib. split; split_all. Qed.

Lemma ei_early_mono (t1 t2 : Q) :
  t1 <= t2 ->
  ei_early t1 <= ei_early t2
  /\ ei_early t2 - ei_early t1 <= 0.0164 * (t2 - t1).
Proof. intros H. open_contrib. split; split_all. Qed.

Lemma ei_annualized_mono (t1 t2 : Q) :
  t1 <= t2 ->
  ei_annualized t1 <= ei_annualized t2
  /\ ei_annualized t2 - ei_annualized t1 <= 0.0164 * (t2 - t1).
Proof. intros H. open_contrib. split; split_all. Qed.

Lemma cpp2_early_mono (t1 t2 : Q) :
  t1 <= t2 -> cpp2_early t1 <= cpp2_early t2.
Proof. intros H. open_contrib. split_all. Qed.

(** ** The progressive tax loop and the marginal-rate schedule *)

(** Once nothing remains the loop leaves the tax as it is. *)
Lemma loop_exhausted (bs : list bracket) (r : Q) (last : num) (tax : Q) :
  r <= 0 -> Calculator.progressiveLoop bs r last tax = tax.
Proof.
  intros H. destruct bs as [| b rest]; simpl; [reflexivity |].
  destruct (js_le_cases r 0) as [[_ E] | [L _]]; [rewrite E; reflexivity | lra].
Qed.

(** No slice of an income below [last] lies above [last]. *)
Lemma slices_below (bs : list bracket) :
  forall last x, ascending last bs -> x <= last -> marginalSlices last bs x == 0.
Proof.
  induction bs as [| b rest IH]; intros last x A Hx; simpl in *; [reflexivity |].
  destruct (limit b) as [l | | |]; try contradiction.
  - destruct A as [Hl A]. rewrite (IH l x A) by lra.
    assert (Z : Qmax 0 (Qmin x l - last) == 0) by (split_all; lra).
    rewrite Z. ring.
  - assert (Z : Qmax 0 (x - last) == 0) by (split_all; lra).
    rewrite Z. ring.
Qed.

(** The loop started at [last] with [r] remaining adds the slices of the
    income [last + r]. *)
Lemma loop_marginal (bs : list bracket) :
  forall last r x tax,
    ascending last bs -> 0 <= r -> x == last + r ->
    Calculator.progressiveLoop bs r (Fin last) tax
    == tax + marginalSlices last bs x.
Proof.
  induction bs as [| b rest IH]; intros last r x tax A Hr Hx; simpl in A; [contradiction |].
  cbn [Calculator.progressiveLoop marginalSlices].
  destruct (js_le_cases r 0) as [[L E] | [L E]]; rewrite E.
  - (* break *)
    destruct (limit b) as [l | | |]; try contradiction.
    + destruct A as [Hl A]. rewrite (slices_below rest l x A) by lra.
      assert (Z : Qmax 0 (Qmin x l - last) == 0) by (split_all; lra).
      rewrite Z. ring.
    + assert (Z : Qmax 0 (x - last) == 0) by (split_all; lra).
      rewrite Z. ring.
  - destruct (limit b) as [l | | |] eqn:El; try contradiction; cbn [num_sub num_min].
    + destruct A as [Hl A].
      destruct (Qmin_cases r (l - last)) as [[Hm Em] | [Hm Em]]; rewrite Em;
        match goal with |- context [js_gt ?a 0] =>
          destruct (js_gt_cases a 0) as [[G Eg] | [G Eg]]; [rewrite Eg | lra] end.
      * (* the income ends inside this bracket *)
        rewrite loop_exhausted by lra.
        rewrite (slices_below rest l x A) by lra.
        assert (Z : Qmax 0 (Qmin x l - last) == r) by (split_all; lra).
        rewrite Z. ring.
      * (* the bracket is filled *)
        rewrite (IH l (r - (l - last)) x) by (auto; lra).
        assert (Z : Qmax 0 (Qmin x l - last) == l - last) by (split_all; lra).
        rewrite Z. ring.
    + (* the unbounded bracket takes all that remains *)
      destruct (js_gt_cases r 0) as [[G Eg] | [G Eg]]; [rewrite Eg | lra].
      rewrite loop_exhausted by lra.
      assert (Z : Qmax 0 (x - last) == r) by (split_all; lra).
      rewrite Z. ring.
Qed.

(** On a well-formed schedule the loop computes the marginal-rate tax,
    for every income; a non-positive income pays nothing. *)
Lemma applyProgressiveTax_marginal (income : Q) (bs : list bracket) :
  ascending 0 bs ->
  Calculator.applyProgressiveTax income bs == marginalTax income bs.
Proof.
  intros A. unfold Calculator.applyProgressiveTax, marginalTax.
  destruct (Qlt_le_dec income 0) as [N | P].
  - rewrite loop_exhausted by lra. rewrite slices_below; auto; lra.
  - rewrite (loop_marginal bs 0 income income 0) by (auto; lra). ring.
Qed.

(** On a well-formed schedule whose rates are all at least [rho], the
    marginal-rate tax grows at least at rate [rho] above [last]. *)
Lemma marginal_slope (rho : Q) (bs : list bracket) :
  forall last x1 x2,
    ascending last bs -> Forall (fun b => rho <= rate b) bs -> x1 <= x2 ->
    rho * (Qmax last x2 - Qmax last x1)
    <= marginalSlices last bs x2 - marginalSlices last bs x1.
Proof.
  induction bs as [| b rest IH]; intros last x1 x2 A R Hx; simpl in A; [contradiction |].
  inversion R as [| b' rest' Rb Rrest]; subst.
  cbn [marginalSlices].
  destruct (limit b) as [l | | |]; try contradiction.
  - destruct A as [Hl A].
    specialize (IH l x1 x2 A Rrest Hx).
    set (c1 := Qmax 0 (Qmin x1 l - last)) in *.
    set (c2 := Qmax 0 (Qmin x2 l - last)) in *.
    assert (Hc : c1 <= c2) by (unfold c1, c2; split_all; lra).
    assert (M1 : Qmax last x1 == last + c1 + (Qmax l x1 - l))
      by (unfold c1; split_all; lra).
    assert (M2 : Qmax last x2 == last + c2 + (Qmax l x2 - l))
      by (unfold c2; split_all; lra).
    rewrite M1, M2.
    assert (P : 0 <= (rate b - rho) * (c2 - c1))
      by (apply Qmult_le_0_compat; lra).
    generalize dependent (Qmax l x1). generalize dependent (Qmax l x2).
    generalize dependent (marginalSlices l rest x1).
    generalize dependent (marginalSlices l rest x2).
    intros. nra.
  - set (c1 := Qmax 0 (x1 - last)) in *.
    set (c2 := Qmax 0 (x2 - last)) in *.
    assert (Hc : c1 <= c2) by (unfold c1, c2; split_all; lra).
    assert (M1 : Qmax last x1 == last + c1) by (unfold c1; split_all; lra).
    assert (M2 : Qmax last x2 == last + c2) by (unfold c2; split_all; lra).
    rewrite M1, M2.
    assert (P : 0 <= (rate b - rho) * (c2 - c1))
      by (apply Qmult_le_0_compat; lra).
    nra.
Qed.

(** The two schedules of the constant table are well formed. *)
Lemma fed_ascending : ascending 0 Calculator.FED_BRACKETS_2025.
Proof. simpl. repeat split. Qed.

Lemma ab_ascending : ascending 0 Calculator.AB_BRACKETS_2025.
Proof. simpl. repeat split. Qed.

Lemma fed_rates : Forall (fun b => 0.15 <= rate b) Calculator.FED_BRACKETS_2025.
Proof. repeat constructor; simpl; lra. Qed.

Lemma ab_rates : Forall (fun b => 0.08 <= rate b) Calculator.AB_BRACKETS_2025.
Proof. repeat constructor; simpl; lra. Qed.

(** Gross annual tax grows at least at the lowest rate of its schedule. *)
Lemma gross_slope (rho : Q) (bs : list bracket) (a1 a2 : Q) :
  ascending 0 bs -> Forall (fun b => rho <= rate b) bs ->
  0 <= a1 -> a1 <= a2 ->
  rho * (a2 - a1)
  <= Calculator.applyProgressiveTax a2 bs - Calculator.applyProgressiveTax a1 bs.
Proof.
  intros A R H0 H.
  rewrite !applyProgressiveTax_marginal by exact A.
  pose proof (marginal_slope rho bs 0 a1 a2 A R H) as S.
  unfold marginalTax.
  assert (M1 : Qmax 0 a1 == a1) by (split_all; lra).
  assert (M2 : Qmax 0 a2 == a2) by (split_all; lra).
  rewrite M1, M2 in S. exact S.
Qed.

(** ** The income tax step *)

(** Both weekly taxes are floored at zero. *)
Lemma income_tax_nonneg (t c e : Q) (m : string) :
  0 <= federalWeekly (Calculator.calculateIncomeTaxForWeek t c e m)
  /\ 0 <= abWeekly (Calculator.calculateIncomeTaxForWeek t c e m).
Proof.
  unfold Calculator.calculateIncomeTaxForWeek. cbn [federalWeekly abWeekly].
  split; split_all.
Qed.

(** The legacy income tax step is the same function without the unused
    mode parameter. *)
Lemma legacy_income_tax (t c e : Q) (m : string) :
  Legacy.calculateIncomeTaxForWeek t c e = Calculator.calculateIncomeTaxForWeek t c e m.
Proof. reflexivity. Qed.

(** When the contributions grow no faster than their rates, the credit
    for them grows slower than the gross tax, so both weekly taxes are
    monotone in the weekly amount. *)
Lemma income_tax_mono (t1 t2 c1 c2 e1 e2 : Q) (m : string) :
  0 <= t1 -> t1 <= t2 ->
  c2 - c1 <= 0.0595 * (t2 - t1) ->
  e2 - e1 <= 0.0164 * (t2 - t1) ->
  federalWeekly (Calculator.calculateIncomeTaxForWeek t1 c1 e1 m)
  <= federalWeekly (Calculator.calculateIncomeTaxForWeek t2 c2 e2 m)
  /\ abWeekly (Calculator.calculateIncomeTaxForWeek t1 c1 e1 m)
     <= abWeekly (Calculator.calculateIncomeTaxForWeek t2 c2 e2 m).
Proof.
  intros H0 H Hc He.
  assert (A0 : 0 <= t1 * 52) by lra.
  assert (A : t1 * 52 <= t2 * 52) by lra.
  pose proof (gross_slope 0.15 _ _ _ fed_ascending fed_rates A0 A) as GF.
  pose proof (gross_slope 0.08 _ _ _ ab_ascending ab_rates A0 A) as GA.
  unfold Calculator.calculateIncomeTaxForWeek,
    Calculator.calculateAnnualFederalTaxGross,
    Calculator.calculateAnnualAlbertaTaxGross.
  cbn [federalWeekly abWeekly].
  generalize dependent
    (Calculator.applyProgressiveTax (t1 * 52) Calculator.FED_BRACKETS_2025).
  generalize dependent
    (Calculator.applyProgressiveTax (t2 * 52) Calculator.FED_BRACKETS_2025).
  generalize dependent
    (Calculator.applyProgressiveTax (t1 * 52) Calculator.AB_BRACKETS_2025).
  generalize dependent
    (Calculator.applyProgressiveTax (t2 * 52) Calculator.AB_BRACKETS_2025).
  intros a2 a1 GA f2 f1 GF. unfold_consts.
  split; split_all.
Qed.

(** The sum of the six deductions is monotone as soon as its
    contribution inputs are, for a non-negative dues rate. *)
Lemma deductions_sum_mono (t1 t2 c1 c2 d1 d2 e1 e2 r : Q) (m : string) :
  0 <= t1 -> t1 <= t2 -> 0 <= r ->
  c1 <= c2 -> c2 - c1 <= 0.0595 * (t2 - t1) ->
  d1 <= d2 ->
  e1 <= e2 -> e2 - e1 <= 0.0164 * (t2 - t1) ->
  c1 + d1 + e1
    + federalWeekly (Calculator.calculateIncomeTaxForWeek t1 c1 e1 m)
    + abWeekly (Calculator.calculateIncomeTaxForWeek t1 c1 e1 m) + t1 * r
  <= c2 + d2 + e2
    + federalWeekly (Calculator.calculateIncomeTaxForWeek t2 c2 e2 m)
    + abWeekly (Calculator.calculateIncomeTaxForWeek t2 c2 e2 m) + t2 * r.
Proof.
  intros H0 H Hr Hc Hc' Hd He He'.
  destruct (income_tax_mono t1 t2 c1 c2 e1 e2 m H0 H Hc' He') as [F A].
  assert (D : 0 <= (t2 - t1) * r) by (apply Qmult_le_0_compat; lra).
  generalize dependent (federalWeekly (Calculator.calculateIncomeTaxForWeek t1 c1 e1 m)).
  generalize dependent (federalWeekly (Calculator.calculateIncomeTaxForWeek t2 c2 e2 m)).
  generalize dependent (abWeekly (Calculator.calculateIncomeTaxForWeek t1 c1 e1 m)).
  generalize dependent (abWeekly (Calculator.calculateIncomeTaxForWeek t2 c2 e2 m)).
  intros. nra.
Qed.

(** ** The orchestrator *)

Ltac open_breakdown :=
  unfold Calculator.calculateDeductionsForWeek, Legacy.calculateDeductionsForWeek;
  cbv zeta;
  cbn [cpp cpp2 ei federalTax albertaTax unionDues totalDeductions
       netTaxableOnly netPayTotal default_arg nullish unionDuesRate taxMode
       empty_options].

(** [x || 0] has the value of [x] for a number [x]. *)
Lemma or_zero_some (q : Q) : or_zero (Some q) == q.
Proof.
  simpl. destruct (Qeq_bool q 0) eqn:E; [| reflexivity].
  apply Qeq_bool_iff in E. symmetry. exact E.
Qed.

(** A value other than the string ["annualized"] fails the mode test. *)
Lemma not_annualized (v : jsval) :
  v <> JString "annualized" -> strict_eq_string v "annualized" = false.
Proof.
  intros H. destruct v as [| | b | q | s]; simpl; try reflexivity.
  apply String.eqb_neq. intro E. apply H. rewrite E. reflexivity.
Qed.

(** The sum of deductions of [src/calculator.js] under either branch. *)
Lemma calculator_total_mono (t1 t2 r : Q) (m : string) :
  0 <= t1 -> t1 <= t2 -> 0 <= r ->
  let ce1 := Calculator.calculateCppEiForWeek t1 m in
  let ce2 := Calculator.calculateCppEiForWeek t2 m in
  CppEi.cpp ce1 + CppEi.cpp2 ce1 + CppEi.ei ce1
    + federalWeekly (Calculator.calculateIncomeTaxForWeek t1 (CppEi.cpp ce1) (CppEi.ei ce1) m)
    + abWeekly (Calculator.calculateIncomeTaxForWeek t1 (CppEi.cpp ce1) (CppEi.ei ce1) m)
    + t1 * r
  <= CppEi.cpp ce2 + CppEi.cpp2 ce2 + CppEi.ei ce2
    + federalWeekly (Calculator.calculateIncomeTaxForWeek t2 (CppEi.cpp ce2) (CppEi.ei ce2) m)
    + abWeekly (Calculator.calculateIncomeTaxForWeek t2 (CppEi.cpp ce2) (CppEi.ei ce2) m)
    + t2 * r.
Proof.
  intros H0 H Hr ce1 ce2. subst ce1 ce2.
  destruct (calculator_mode_branch m) as [E | E]; rewrite !E.
  - apply deductions_sum_mono; auto.
    + apply (proj1 (cpp_early_mono t1 t2 H)).
    + apply (proj2 (cpp_early_mono t1 t2 H)).
    + apply (cpp2_early_mono t1 t2 H).
    + apply (proj1 (ei_early_mono t1 t2 H)).
    + apply (proj2 (ei_early_mono t1 t2 H)).
  - apply deductions_sum_mono; auto.
    + apply (proj1 (cpp_annualized_mono t1 t2 H)).
    + apply (proj2 (cpp_annualized_mono t1 t2 H)).
    + apply (cpp2_early_mono t1 t2 H).
    + apply (proj1 (ei_annualized_mono t1 t2 H)).
    + apply (proj2 (ei_annualized_mono t1 t2 H)).
Qed.

(** The legacy engine returns, field by field, what [src/calculator.js]
    returns for the options [{ taxMode: v }]. *)
Lemma legacy_agrees (t : Q) (n : option Q) (v : jsval) :
  breakdown_equiv
    (Legacy.calculateDeductionsForWeek t n v)
    (Calculator.calculateDeductionsForWeek t n (Some (mkOptions Undefined v))).
Proof.
  assert (N : or_zero n == default_arg n 0)
    by (destruct n as [q |]; [apply or_zero_some | reflexivity]).
  unfold breakdown_equiv. open_breakdown.
  change Legacy.UNION_DUES_RATE with Calculator.DEFAULT_UNION_DUES_RATE.
  destruct (strict_eq_string v "annualized").
  - destruct (legacy_annualized t) as (Hc & Hd & He).
    rewrite Hc, He, N, (legacy_income_tax _ _ _ "annualized").
    unfold cpp_annualized, ei_annualized, cpp2_annualized in *.
    generalize dependent (CppEi.cpp2 (Legacy.calculateCppEiForWeek t "annualized")).
    intros d Hd.
    repeat apply conj; try apply Qeq_refl; rewrite Hd; apply Qeq_refl.
  - destruct (legacy_early t) as (Hc & Hd & He).
    rewrite Hc, He, N, (legacy_income_tax _ _ _ "early-year").
    unfold cpp_early, ei_early, cpp2_early in *.
    generalize dependent (CppEi.cpp2 (Legacy.calculateCppEiForWeek t "early-year")).
    intros d Hd.
    repeat apply conj; try apply Qeq_refl; rewrite Hd; apply Qeq_refl.
Qed.

(** In exact arithmetic the sum of deductions of [src/calculator.js]
    is monotone. *)
Lemma calculator_monotone (t1 t2 : Q) (n : option Q) (opts : option options) :
  0 <= nullish (unionDuesRate (default_arg opts empty_options))
         Calculator.DEFAULT_UNION_DUES_RATE ->
  0 <= t1 -> t1 <= t2 ->
  totalDeductions (Calculator.calculateDeductionsForWeek t1 n opts)
  <= totalDeductions (Calculator.calculateDeductionsForWeek t2 n opts).
Proof.
  intros Hr H0 H. open_breakdown.
  apply calculator_total_mono; assumption.
Qed.

(** ** The engine on concrete weeks *)

(** A week of 1500 taxable and 100 non-taxable in early-year mode: dues
    of 56.25, the insurance premium at its weekly cap, and the same
    record from both files. *)
Example week_1500_dues :
  unionDues (Calculator.calculateDeductionsForWeek 1500 (Some 100) None) == 56.25.
Proof. vm_compute. reflexivity. Qed.

Example week_1500_insurance :
  ei (Calculator.calculateDeductionsForWeek 1500 (Some 100) None) == 1077.48 / 52
  /\ ei (Legacy.calculateDeductionsForWeek 1500 (Some 100) JUndefined) == 1077.48 / 52.
Proof. split; vm_compute; reflexivity. Qed.

(** A year of 100000 crosses the first federal limit: 15% of 57375 and
    20.5% of the rest. *)
Example federal_gross_100000 :
  Calculator.calculateAnnualFederalTaxGross 100000
  == 57375 * 0.15 + (100000 - 57375) * 0.205.
Proof. vm_compute. reflexivity. Qed.

(** A week without earnings gives a record of zeros. *)
Example week_zero :
  breakdown_equiv
    (Calculator.calculateDeductionsForWeek 0 (Some 0) None)
    (mkBreakdown 0 0 0 0 0 0 0 0 0).
Proof. unfold breakdown_equiv. repeat apply conj; vm_compute; reflexivity. Qed.

(** ** Properties of the specification *)

(** C1.  In both files and for every weekly amount and every mode
    string (so in the early-year and in the annualized branch), the
    three outputs of [calculateCppEiForWeek] are at most their annual
    caps divided by 52; from [81200 / 52] a week on, each of them is its
    cap exactly. *)
Theorem contribution_caps (t : Q) (m : string) :
  (CppEi.cpp (Calculator.calculateCppEiForWeek t m) <= 4034.10 / 52
   /\ CppEi.cpp2 (Calculator.calculateCppEiForWeek t m) <= 396.00 / 52
   /\ CppEi.ei (Calculator.calculateCppEiForWeek t m) <= 1077.48 / 52)
  /\ (CppEi.cpp (Legacy.calculateCppEiForWeek t m) <= 4034.10 / 52
      /\ CppEi.cpp2 (Legacy.calculateCppEiForWeek t m) <= 396.00 / 52
      /\ CppEi.ei (Legacy.calculateCppEiForWeek t m) <= 1077.48 / 52)
  /\ (81200 / 52 <= t ->
      (CppEi.cpp (Calculator.calculateCppEiForWeek t m) == 4034.10 / 52
       /\ CppEi.cpp2 (Calculator.calculateCppEiForWeek t m) == 396.00 / 52
       /\ CppEi.ei (Calculator.calculateCppEiForWeek t m) == 1077.48 / 52)
      /\ (CppEi.cpp (Legacy.calculateCppEiForWeek t m) == 4034.10 / 52
          /\ CppEi.cpp2 (Legacy.calculateCppEiForWeek t m) == 396.00 / 52
          /\ CppEi.ei (Legacy.calculateCppEiForWeek t m) == 1077.48 / 52)).
Proof.
  destruct (legacy_early t) as (Lc & Ld & Le).
  destruct (legacy_annualized t) as (Ac & Ad & Ae).
  split; [| split].
  - destruct (calculator_mode_branch m) as [E | E]; rewrite E.
    + exact (conj (cpp_early_cap t) (conj (cpp2_early_cap t) (ei_early_cap t))).
    + exact (conj (cpp_annualized_cap t)
                  (conj (cpp2_annualized_cap t) (ei_annualized_cap t))).
  - destruct (legacy_mode_branch m) as [E | E]; rewrite E.
    + rewrite Lc, Ld, Le.
      exact (conj (cpp_early_cap t) (conj (cpp2_early_cap t) (ei_early_cap t))).
    + rewrite Ac, Ad, Ae.
      exact (conj (cpp_annualized_cap t)
                  (conj (cpp2_annualized_cap t) (ei_annualized_cap t))).
  - intros H. split.
    + destruct (calculator_mode_branch m) as [E | E]; rewrite E.
      * exact (early_saturated t H).
      * exact (annualized_saturated t H).
    + destruct (legacy_mode_branch m) as [E | E]; rewrite E.
      * rewrite Lc, Ld, Le. exact (early_saturated t H).
      * rewrite Ac, Ad, Ae. exact (annualized_saturated t H).
Qed.

(** The caps are reached at the weekly amount 100000 of the
    specification's example. *)
Lemma contribution_caps_witness :
  81200 / 52 <= 100000
  /\ CppEi.cpp (Calculator.calculateCppEiForWeek 100000 "early-year") == 4034.10 / 52
  /\ CppEi.cpp2 (Calculator.calculateCppEiForWeek 100000 "early-year") == 396.00 / 52
  /\ CppEi.ei (Calculator.calculateCppEiForWeek 100000 "early-year") == 1077.48 / 52.
Proof.
  assert (H : 81200 / 52 <= 100000) by (vm_compute; discriminate).
  split; [exact H |].
  exact (proj1 (proj2 (proj2 (contribution_caps 100000 "early-year")) H)).
Defined.

(** C2.  In both files the returned record satisfies the net pay
    identity, and [totalDeductions] is the sum of the six deductions;
    a missing [nonTaxableWeekly] counts as zero. *)
Theorem net_pay_identity (t n : Q) (opts : option options) (mode : jsval) :
  let r := Calculator.calculateDeductionsForWeek t (Some n) opts in
  let r0 := Calculator.calculateDeductionsForWeek t None opts in
  let l := Legacy.calculateDeductionsForWeek t (Some n) mode in
  let l0 := Legacy.calculateDeductionsForWeek t None mode in
  (netPayTotal r
   = t - (cpp r + cpp2 r + ei r + federalTax r + albertaTax r + unionDues r) + n
   /\ totalDeductions r
      = cpp r + cpp2 r + ei r + federalTax r + albertaTax r + unionDues r)
  /\ (netPayTotal l
      == t - (cpp l + cpp2 l + ei l + federalTax l + albertaTax l + unionDues l) + n
      /\ totalDeductions l
         = cpp l + cpp2 l + ei l + federalTax l + albertaTax l + unionDues l)
  /\ netPayTotal r0
     = t - (cpp r0 + cpp2 r0 + ei r0 + federalTax r0 + albertaTax r0 + unionDues r0) + 0
  /\ netPayTotal l0
     = t - (cpp l0 + cpp2 l0 + ei l0 + federalTax l0 + albertaTax l0 + unionDues l0) + 0.
Proof.
  intros r r0 l l0. subst r r0 l l0.
  split; [split; reflexivity |].
  split; [split; [| reflexivity] |].
  - open_breakdown. rewrite or_zero_some. apply Qeq_refl.
  - split; reflexivity.
Qed.

(** The income tax step computes the formula for both authorities. *)
Lemma income_tax_formula (t c e : Q) (m : string) :
  federalWeekly (Calculator.calculateIncomeTaxForWeek t c e m)
  == weeklyTaxFormula t c e Calculator.FED_BRACKETS_2025
       Calculator.FED_BPA Calculator.FED_CREDIT_RATE
  /\ abWeekly (Calculator.calculateIncomeTaxForWeek t c e m)
     == weeklyTaxFormula t c e Calculator.AB_BRACKETS_2025
          Calculator.AB_BPA Calculator.AB_CREDIT_RATE.
Proof.
  unfold Calculator.calculateIncomeTaxForWeek, weeklyTaxFormula,
    Calculator.calculateAnnualFederalTaxGross,
    Calculator.calculateAnnualAlbertaTaxGross.
  cbn [federalWeekly abWeekly].
  pose proof (applyProgressiveTax_marginal (t * 52) _ fed_ascending) as F.
  pose proof (applyProgressiveTax_marginal (t * 52) _ ab_ascending) as A.
  generalize dependent
    (Calculator.applyProgressiveTax (t * 52) Calculator.FED_BRACKETS_2025).
  generalize dependent
    (Calculator.applyProgressiveTax (t * 52) Calculator.AB_BRACKETS_2025).
  generalize (marginalTax (t * 52) Calculator.FED_BRACKETS_2025).
  generalize (marginalTax (t * 52) Calculator.AB_BRACKETS_2025).
  intros ma mf a A f F. unfold_consts.
  split; split_all.
Qed.

(** C5.  Each authority's weekly tax is the formula of the
    specification, with that authority's schedule, basic personal amount
    and credit rate.  In the breakdown of both files the credit basis is
    the [cpp] and [ei] fields alone: [cpp2] does not enter. *)
Theorem weekly_tax_formula (t c e : Q) (m : string)
        (n : option Q) (opts : option options) (mode : jsval) :
  let r := Calculator.calculateDeductionsForWeek t n opts in
  let l := Legacy.calculateDeductionsForWeek t n mode in
  (federalWeekly (Calculator.calculateIncomeTaxForWeek t c e m)
   == weeklyTaxFormula t c e Calculator.FED_BRACKETS_2025 16129 0.145
   /\ abWeekly (Calculator.calculateIncomeTaxForWeek t c e m)
      == weeklyTaxFormula t c e Calculator.AB_BRACKETS_2025 22323 0.08)
  /\ (federalWeekly (Legacy.calculateIncomeTaxForWeek t c e)
      == weeklyTaxFormula t c e Legacy.FED_BRACKETS_2025 16129 0.145
      /\ abWeekly (Legacy.calculateIncomeTaxForWeek t c e)
         == weeklyTaxFormula t c e Legacy.AB_BRACKETS_2025 22323 0.08)
  /\ (federalTax r
      == weeklyTaxFormula t (cpp r) (ei r) Calculator.FED_BRACKETS_2025 16129 0.145
      /\ albertaTax r
         == weeklyTaxFormula t (cpp r) (ei r) Calculator.AB_BRACKETS_2025 22323 0.08)
  /\ (federalTax l
      == weeklyTaxFormula t (cpp l) (ei l) Legacy.FED_BRACKETS_2025 16129 0.145
      /\ albertaTax l
         == weeklyTaxFormula t (cpp l) (ei l) Legacy.AB_BRACKETS_2025 22323 0.08).
Proof.
  intros r l. subst r l.
  split; [exact (income_tax_formula t c e m) |].
  split; [exact (income_tax_formula t c e m) |].
  split.
  - open_breakdown. apply income_tax_formula.
  - open_breakdown. apply (income_tax_formula _ _ _ "early-year").
Qed.

Lemma cpp2_formula (t : Q) : cpp2_early t == tier2Formula t.
Proof.
  unfold tier2Formula. open_contrib.
  destruct (Qlt_le_dec 71300 (t * 52)) as [L | L]; split_all.
Qed.

(** C6.  The tier-2 output is the same in the early-year and in the
    annualized mode, for every weekly amount and in both files, and it
    is the formula on the projected year. *)
Theorem tier2_mode_independent (t : Q) :
  (CppEi.cpp2 (Calculator.calculateCppEiForWeek t "early-year")
   = CppEi.cpp2 (Calculator.calculateCppEiForWeek t "annualized")
   /\ CppEi.cpp2 (Calculator.calculateCppEiForWeek t "early-year") == tier2Formula t
   /\ CppEi.cpp2 (Calculator.calculateCppEiForWeek t "annualized") == tier2Formula t)
  /\ (CppEi.cpp2 (Legacy.calculateCppEiForWeek t "early-year")
      = CppEi.cpp2 (Legacy.calculateCppEiForWeek t "annualized")
      /\ CppEi.cpp2 (Legacy.calculateCppEiForWeek t "early-year") == tier2Formula t
      /\ CppEi.cpp2 (Legacy.calculateCppEiForWeek t "annualized") == tier2Formula t).
Proof.
  destruct (legacy_early t) as (_ & Ld & _).
  destruct (legacy_annualized t) as (_ & Ad & _).
  split.
  - split; [reflexivity |]. split; exact (cpp2_formula t).
  - split; [reflexivity |]. split.
    + rewrite Ld. exact (cpp2_formula t).
    + rewrite Ad. exact (cpp2_formula t).
Qed.

(** C7.  In both files a mode other than the string ["annualized"],
    an omitted one included, gives the record of the explicit mode
    ["early-year"]. *)
Theorem mode_default (t : Q) (n : option Q) (rate : nullable) (v : jsval) :
  v <> JString "annualized" ->
  Calculator.calculateDeductionsForWeek t n (Some (mkOptions rate v))
  = Calculator.calculateDeductionsForWeek t n
      (Some (mkOptions rate (JString "early-year")))
  /\ Calculator.calculateDeductionsForWeek t n None
     = Calculator.calculateDeductionsForWeek t n
         (Some (mkOptions Undefined (JString "early-year")))
  /\ Legacy.calculateDeductionsForWeek t n v
     = Legacy.calculateDeductionsForWeek t n (JString "early-year").
Proof.
  intros H. apply not_annualized in H.
  unfold Calculator.calculateDeductionsForWeek, Legacy.calculateDeductionsForWeek.
  cbn [default_arg taxMode unionDuesRate empty_options].
  rewrite H. repeat apply conj; reflexivity.
Qed.

Lemma mode_default_witness :
  JString "weekly" <> JString "annualized"
  /\ Calculator.calculateDeductionsForWeek 1500 (Some 100)
       (Some (mkOptions Undefined (JString "weekly")))
     = Calculator.calculateDeductionsForWeek 1500 (Some 100)
         (Some (mkOptions Undefined (JString "early-year")))
  /\ Legacy.calculateDeductionsForWeek 1500 (Some 100) (JString "weekly")
     = Legacy.calculateDeductionsForWeek 1500 (Some 100) (JString "early-year").
Proof.
  assert (H : JString "weekly" <> JString "annualized") by discriminate.
  split; [exact H |].
  destruct (mode_default 1500 (Some 100) Undefined (JString "weekly") H)
    as (C & _ & L).
  exact (conj C L).
Defined.

(** C8.  For every taxable amount, non-taxable amount and mode
    string, [src/calculator.js] called with [{ taxMode: m }] and the
    legacy file called with [m] return records equal field by field. *)
Theorem engines_agree (t n : Q) (m : string) :
  breakdown_equiv
    (Calculator.calculateDeductionsForWeek t (Some n)
       (Some (mkOptions Undefined (JString m))))
    (Legacy.calculateDeductionsForWeek t (Some n) (JString m)).
Proof.
  destruct (legacy_agrees t (Some n) (JString m))
    as (H1 & H2 & H3 & H4 & H5 & H6 & H7 & H8 & H9).
  unfold breakdown_equiv.
  repeat apply conj; symmetry; assumption.
Qed.

(** C10.  In [src/calculator.js] a given dues rate is the one used,
    the rate 0 included, which gives dues of 0; the default rate 0.0375
    replaces an [undefined] or [null] rate only, and an omitted options
    argument. *)
Theorem dues_rate_override (t : Q) (n : option Q) (m : jsval) :
  unionDues (Calculator.calculateDeductionsForWeek t n
               (Some (mkOptions (Value 0) m))) == 0
  /\ (forall r : Q,
        unionDues (Calculator.calculateDeductionsForWeek t n
                     (Some (mkOptions (Value r) m))) = t * r)
  /\ unionDues (Calculator.calculateDeductionsForWeek t n
                  (Some (mkOptions Undefined m))) = t * 0.0375
  /\ unionDues (Calculator.calculateDeductionsForWeek t n
                  (Some (mkOptions Null m))) = t * 0.0375
  /\ unionDues (Calculator.calculateDeductionsForWeek t n None) = t * 0.0375.
Proof.
  split; [open_breakdown; ring |].
  repeat apply conj; try intros r; reflexivity.
Qed.

(** ** Further properties of the helpers *)

(** X1.  [clamp] returns a value of the band when the band is not
    empty, leaves the values of the band as they are, and is idempotent;
    on an inverted band it returns the lower bound. *)
Theorem clamp_band (value minVal maxVal : Q) :
  (minVal <= maxVal ->
   minVal <= Calculator.clamp value minVal maxVal
   /\ Calculator.clamp value minVal maxVal <= maxVal
   /\ (minVal <= value -> value <= maxVal ->
       Calculator.clamp value minVal maxVal == value)
   /\ Calculator.clamp (Calculator.clamp value minVal maxVal) minVal maxVal
      == Calculator.clamp value minVal maxVal)
  /\ (maxVal < minVal -> Calculator.clamp value minVal maxVal = minVal)
  /\ Legacy.clamp value minVal maxVal = Calculator.clamp value minVal maxVal.
Proof.
  unfold Legacy.clamp, Calculator.clamp.
  split; [intros H | split; [intros H | reflexivity]].
  - repeat apply conj; try intros H1 H2; split_all; lra.
  - destruct (Qmin_cases maxVal value) as [[? E] | [? E]]; rewrite E;
      match goal with |- Qmax ?a ?b = _ =>
        destruct (Qmax_cases a b) as [[? E'] | [? E']]; rewrite E' end;
      try reflexivity; exfalso; lra.
Qed.

Lemma clamp_band_witness :
  0 <= 9900
  /\ 0 <= Calculator.clamp 12000 0 9900 /\ Calculator.clamp 12000 0 9900 <= 9900.
Proof.
  assert (H : 0 <= 9900) by (vm_compute; discriminate).
  split; [exact H |].
  destruct (proj1 (clamp_band 12000 0 9900) H) as (A & B & _).
  exact (conj A B).
Defined.

(** X2.  A non-positive annual income pays no tax, whatever the list of
    brackets: the loop stops before its first slice. *)
Theorem progressive_tax_no_income (income : Q) (bs : list bracket) :
  income <= 0 ->
  Calculator.applyProgressiveTax income bs = 0
  /\ Legacy.applyProgressiveTax income bs = 0.
Proof.
  intros H. split; apply loop_exhausted; exact H.
Qed.

Lemma progressive_tax_no_income_witness :
  -100 <= 0
  /\ Calculator.applyProgressiveTax (-100) Calculator.FED_BRACKETS_2025 = 0.
Proof.
  assert (H : -100 <= 0) by (vm_compute; discriminate).
  split; [exact H |].
  exact (proj1 (progressive_tax_no_income (-100) Calculator.FED_BRACKETS_2025 H)).
Defined.

(** ** Further properties of the contribution step *)

(** The outputs of the legacy file in terms of the named branches. *)
Lemma legacy_outputs (t : Q) (m : string) :
  (CppEi.cpp (Legacy.calculateCppEiForWeek t m) = cpp_early t
   /\ CppEi.cpp2 (Legacy.calculateCppEiForWeek t m) == cpp2_early t
   /\ CppEi.ei (Legacy.calculateCppEiForWeek t m) = ei_early t)
  \/ (CppEi.cpp (Legacy.calculateCppEiForWeek t m) = cpp_annualized t
      /\ CppEi.cpp2 (Legacy.calculateCppEiForWeek t m) == cpp2_annualized t
      /\ CppEi.ei (Legacy.calculateCppEiForWeek t m) = ei_annualized t).
Proof.
  destruct (legacy_mode_branch m) as [E | E]; rewrite E.
  - left. exact (legacy_early t).
  - right. exact (legacy_annualized t).
Qed.

(** In exact arithmetic the two branches compute the same tier-1 and
    insurance amounts: the annual caps are the rates applied to the
    annual ceilings. *)
Lemma branches_agree (t : Q) :
  cpp_early t == cpp_annualized t /\ ei_early t == ei_annualized t.
Proof. open_contrib. split; split_all. Qed.

(** In exact arithmetic the outputs of either file, for any mode
    string, are numerically those of the early-year branch. *)
Lemma calculator_outputs (t : Q) (m : string) :
  CppEi.cpp (Calculator.calculateCppEiForWeek t m) == cpp_early t
  /\ CppEi.cpp2 (Calculator.calculateCppEiForWeek t m) == cpp2_early t
  /\ CppEi.ei (Calculator.calculateCppEiForWeek t m) == ei_early t.
Proof.
  destruct (branches_agree t) as [Bc Be].
  destruct (calculator_mode_branch m) as [E | E]; rewrite E.
  - repeat apply conj; apply Qeq_refl.
  - fold (cpp_annualized t) (ei_annualized t) (cpp2_annualized t).
    rewrite <- Bc, <- Be. repeat apply conj; apply Qeq_refl.
Qed.

Lemma legacy_outputs_early (t : Q) (m : string) :
  CppEi.cpp (Legacy.calculateCppEiForWeek t m) == cpp_early t
  /\ CppEi.cpp2 (Legacy.calculateCppEiForWeek t m) == cpp2_early t
  /\ CppEi.ei (Legacy.calculateCppEiForWeek t m) == ei_early t.
Proof.
  destruct (branches_agree t) as [Bc Be].
  destruct (legacy_outputs t m) as [(Hc & Hd & He) | (Hc & Hd & He)];
    rewrite Hc, Hd, He.
  - repeat apply conj; apply Qeq_refl.
  - rewrite <- Bc, <- Be. repeat apply conj; apply Qeq_refl.
Qed.

(** What the early-year branch returns, band by band. *)
Lemma early_nonneg (t : Q) :
  0 <= cpp_early t /\ 0 <= cpp2_early t /\ (0 <= t -> 0 <= ei_early t).
Proof.
  open_contrib. split; [| split; [| intros H]]; split_all.
Qed.

(** The income tax step respects numeric equality of its credit inputs. *)
Lemma income_tax_proper (t c c' e e' : Q) (m m' : string) :
  c == c' -> e == e' ->
  federalWeekly (Calculator.calculateIncomeTaxForWeek t c e m)
  == federalWeekly (Calculator.calculateIncomeTaxForWeek t c' e' m')
  /\ abWeekly (Calculator.calculateIncomeTaxForWeek t c e m)
     == abWeekly (Calculator.calculateIncomeTaxForWeek t c' e' m').
Proof.
  intros Hc He.
  unfold Calculator.calculateIncomeTaxForWeek,
    Calculator.calculateAnnualFederalTaxGross,
    Calculator.calculateAnnualAlbertaTaxGross.
  cbn [federalWeekly abWeekly].
  generalize (Calculator.applyProgressiveTax (t * 52) Calculator.FED_BRACKETS_2025).
  generalize (Calculator.applyProgressiveTax (t * 52) Calculator.AB_BRACKETS_2025).
  intros a f. unfold_consts. split; split_all.
Qed.

(** The breakdown of [src/calculator.js] in terms of the early-year
    outputs, whatever the mode. *)
Lemma calculator_breakdown (t : Q) (n : option Q) (opts : option options) :
  let r := Calculator.calculateDeductionsForWeek t n opts in
  let tx := Calculator.calculateIncomeTaxForWeek t (cpp_early t) (ei_early t)
              "early-year" in
  let rate := nullish (unionDuesRate (default_arg opts empty_options))
                Calculator.DEFAULT_UNION_DUES_RATE in
  cpp r == cpp_early t /\ cpp2 r == cpp2_early t /\ ei r == ei_early t
  /\ federalTax r == federalWeekly tx /\ albertaTax r == abWeekly tx
  /\ unionDues r == t * rate
  /\ totalDeductions r
     == cpp_early t + cpp2_early t + ei_early t
        + federalWeekly tx + abWeekly tx + t * rate.
Proof.
  intros r tx rate. subst r tx rate. open_breakdown.
  match goal with |- context [Calculator.calculateCppEiForWeek t ?m] =>
    destruct (calculator_outputs t m) as (Hc & Hd & He);
    destruct (income_tax_proper t _ _ _ _ m "early-year" Hc He) as [Hf Ha];
    generalize dependent (Calculator.calculateCppEiForWeek t m) end.
  intros ce Hc Hd He Hf Ha.
  rewrite Hf, Ha, Hc, Hd, He. repeat apply conj; apply Qeq_refl.
Qed.

(** X6.  For a non-negative weekly amount the three contributions of
    either file are non-negative, in every mode. *)
Theorem contributions_nonnegative (t : Q) (m : string) (ce : CppEi.t) :
  ce = Calculator.calculateCppEiForWeek t m
  \/ ce = Legacy.calculateCppEiForWeek t m ->
  0 <= t ->
  0 <= CppEi.cpp ce /\ 0 <= CppEi.cpp2 ce /\ 0 <= CppEi.ei ce.
Proof.
  intros [E | E] H; subst ce;
    [destruct (calculator_outputs t m) as (Hc & Hd & He)
    | destruct (legacy_outputs_early t m) as (Hc & Hd & He)];
    rewrite Hc, Hd, He;
    destruct (early_nonneg t) as (A & B & C); auto.
Qed.

Lemma contributions_nonnegative_witness :
  (Calculator.calculateCppEiForWeek 1000 "annualized"
   = Calculator.calculateCppEiForWeek 1000 "annualized"
   \/ Calculator.calculateCppEiForWeek 1000 "annualized"
      = Legacy.calculateCppEiForWeek 1000 "annualized")
  /\ 0 <= 1000
  /\ 0 <= CppEi.cpp (Calculator.calculateCppEiForWeek 1000 "annualized").
Proof.
  assert (H : 0 <= 1000) by (vm_compute; discriminate).
  split; [left; reflexivity |]. split; [exact H |].
  exact (proj1 (contributions_nonnegative 1000 "annualized" _
                  (or_introl eq_refl) H)).
Defined.

(** ** Further properties of the income tax step and of the breakdown *)

(** The federal gross tax, band by band. *)
Lemma federal_gross_bands (a : Q) :
  (0 <= a -> a <= 57375 ->
   Calculator.calculateAnnualFederalTaxGross a == 0.15 * a)
  /\ (57375 <= a -> a <= 114750 ->
      Calculator.calculateAnnualFederalTaxGross a
      == 8606.25 + 0.205 * (a - 57375))
  /\ (114750 <= a -> a <= 177882 ->
      Calculator.calculateAnnualFederalTaxGross a
      == 20368.125 + 0.26 * (a - 114750))
  /\ (177882 <= a -> a <= 253414 ->
      Calculator.calculateAnnualFederalTaxGross a
      == 36782.445 + 0.29 * (a - 177882))
  /\ (253414 <= a ->
      Calculator.calculateAnnualFederalTaxGross a
      == 58686.725 + 0.33 * (a - 253414)).
Proof.
  unfold Calculator.calculateAnnualFederalTaxGross.
  rewrite (applyProgressiveTax_marginal a _ fed_ascending).
  unfold marginalTax, Calculator.FED_BRACKETS_2025.
  cbn [marginalSlices limit rate].
  split; [intros H H' | split; [intros H H' | split; [intros H H' |
    split; [intros H H' | intros H]]]]; split_all; lra.
Qed.

(** The Alberta gross tax in its first band. *)
Lemma alberta_gross_first_band (a : Q) :
  0 <= a -> a <= 60000 ->
  Calculator.calculateAnnualAlbertaTaxGross a == 0.08 * a.
Proof.
  intros H H'.
  unfold Calculator.calculateAnnualAlbertaTaxGross.
  rewrite (applyProgressiveTax_marginal a _ ab_ascending).
  unfold marginalTax, Calculator.AB_BRACKETS_2025.
  cbn [marginalSlices limit rate].
  split_all; lra.
Qed.

(** The two taxes of the early-year inputs below the personal credits. *)
Lemma tax_free_core (t : Q) :
  0 <= t ->
  let tx := Calculator.calculateIncomeTaxForWeek t (cpp_early t) (ei_early t)
              "early-year" in
  (t * 52 * 0.15 <= 16129 * 0.145 -> federalWeekly tx == 0)
  /\ (t * 52 <= 22323 -> abWeekly tx == 0).
Proof.
  intros H tx. subst tx.
  destruct (early_nonneg t) as (N1 & _ & N3). specialize (N3 H).
  unfold Calculator.calculateIncomeTaxForWeek. cbn [federalWeekly abWeekly].
  split; intros B.
  - rewrite (proj1 (federal_gross_bands (t * 52))) by lra.
    generalize dependent (cpp_early t). generalize dependent (ei_early t).
    intros. unfold_consts. split_all.
  - rewrite (alberta_gross_first_band (t * 52)) by lra.
    generalize dependent (cpp_early t). generalize dependent (ei_early t).
    intros. unfold_consts. split_all.
Qed.

(** X14.  Low incomes pay no income tax: for a non-negative weekly
    amount, the federal tax of the breakdown is zero while 15% of the
    projected year is at most 14.5% of the federal personal amount
    16129, and the Alberta tax is zero while the projected year is at
    most the Alberta personal amount 22323; in both files and every
    mode. *)
Theorem tax_free_band
        (t : Q) (n : option Q) (opts : option options) (mode : jsval) :
  0 <= t ->
  (t * 52 * 0.15 <= 16129 * 0.145 ->
   federalTax (Calculator.calculateDeductionsForWeek t n opts) == 0
   /\ federalTax (Legacy.calculateDeductionsForWeek t n mode) == 0)
  /\ (t * 52 <= 22323 ->
      albertaTax (Calculator.calculateDeductionsForWeek t n opts) == 0
      /\ albertaTax (Legacy.calculateDeductionsForWeek t n mode) == 0).
Proof.
  intros H.
  destruct (tax_free_core t H) as [F A].
  destruct (calculator_breakdown t n opts) as (_ & _ & _ & F1 & A1 & _).
  destruct (calculator_breakdown t n (Some (mkOptions Undefined mode)))
    as (_ & _ & _ & F2 & A2 & _).
  destruct (legacy_agrees t n mode) as (_ & _ & _ & F3 & A3 & _).
  split; intros B.
  - rewrite F3, F1, F2. split; exact (F B).
  - rewrite A3, A1, A2. split; exact (A B).
Qed.

Lemma tax_free_band_witness :
  0 <= 400 /\ 400 * 52 <= 22323
  /\ albertaTax (Calculator.calculateDeductionsForWeek 400 None None) == 0.
Proof.
  assert (H : 0 <= 400) by (vm_compute; discriminate).
  assert (B : 400 * 52 <= 22323) by (vm_compute; discriminate).
  split; [exact H |]. split; [exact B |].
  exact (proj1 (proj2 (tax_free_band 400 None None JUndefined H) B)).
Defined.


(** ** Binary64: signs and order *)
















(** ** Properties settled on the binary64 embedding *)







(** With a weekly amount of 100, the net pays for the non-taxable
    amounts 0.1 and 0.2 do not differ by [0.1 - 0.2]. *)
Lemma net_pay_difference_rounds :
  (B64.netPayTotal (B64.Calculator.calculateDeductionsForWeek 100 (Some 0.1%float) None)
   - B64.netPayTotal (B64.Calculator.calculateDeductionsForWeek 100 (Some 0.2%float) None)
   =? 0.1 - 0.2)%float = false
  /\ (B64.netPayTotal
        (B64.Legacy.calculateDeductionsForWeek 100 (Some 0.1%float) JUndefined)
      - B64.netPayTotal
          (B64.Legacy.calculateDeductionsForWeek 100 (Some 0.2%float) JUndefined)
      =? 0.1 - 0.2)%float = false.
Proof. split; vm_compute; reflexivity. Qed.

(** C9.  In both files the non-taxable amount reaches [netPayTotal]
    only: two calls that differ in it agree on the eight other fields,
    and the net pay of each is the common [netTaxableOnly] plus its own
    non-taxable amount, a rounded sum. *)
Theorem non_taxable_reaches_net_pay_only
        (t n1 n2 : float) (opts : option B64.options) (mode : jsval) :
  let r1 := B64.Calculator.calculateDeductionsForWeek t (Some n1) opts in
  let r2 := B64.Calculator.calculateDeductionsForWeek t (Some n2) opts in
  let l1 := B64.Legacy.calculateDeductionsForWeek t (Some n1) mode in
  let l2 := B64.Legacy.calculateDeductionsForWeek t (Some n2) mode in
  (B64.cpp r1 = B64.cpp r2 /\ B64.cpp2 r1 = B64.cpp2 r2 /\ B64.ei r1 = B64.ei r2
   /\ B64.federalTax r1 = B64.federalTax r2 /\ B64.albertaTax r1 = B64.albertaTax r2
   /\ B64.unionDues r1 = B64.unionDues r2
   /\ B64.totalDeductions r1 = B64.totalDeductions r2
   /\ B64.netTaxableOnly r1 = B64.netTaxableOnly r2
   /\ B64.netPayTotal r1 = (B64.netTaxableOnly r1 + n1)%float
   /\ B64.netPayTotal r2 = (B64.netTaxableOnly r1 + n2)%float)
  /\ (B64.cpp l1 = B64.cpp l2 /\ B64.cpp2 l1 = B64.cpp2 l2 /\ B64.ei l1 = B64.ei l2
      /\ B64.federalTax l1 = B64.federalTax l2 /\ B64.albertaTax l1 = B64.albertaTax l2
      /\ B64.unionDues l1 = B64.unionDues l2
      /\ B64.totalDeductions l1 = B64.totalDeductions l2
      /\ B64.netTaxableOnly l1 = B64.netTaxableOnly l2
      /\ B64.netPayTotal l1
         = (B64.netTaxableOnly l1 + B64.or_zero (Some n1))%float
      /\ B64.netPayTotal l2
         = (B64.netTaxableOnly l1 + B64.or_zero (Some n2))%float).
Proof.
  intros r1 r2 l1 l2. subst r1 r2 l1 l2.
  split; repeat apply conj; reflexivity.
Qed.










